(** * Relay bot (main.py): link rewriting, markup conversion, captions and
      the dedupe bookkeeping of [handle_channel_post].

    The development embeds the forwarding logic of [main.py] and states the
    properties of its specification over that embedding.

    Conventions of the embedding:
    - a Python [str] is a [string]; a character of [string] stands for the
      Unicode code point of the same number (U+0000 .. U+00FF);
    - a Python [int] is a [Z]; slices follow Python's rules for negative and
      out-of-range indices;
    - [None]-able values are [option]s; truthiness tests ([if x:], [x or y])
      are written out;
    - the functions of the Python standard library that [main.py] calls
      ([urllib.parse.urlparse], [str.format]) are parameters of the
      embedding; [urlparse_netloc] and [format_plain_fields] below are
      models of them, used to evaluate the code on concrete inputs;
    - the sqlite table [forwarded] is the finite set of its primary keys
      (the column [forwarded_at] is filled in by sqlite and read by no
      code);
    - the Telegram client [ctx.bot] is a state machine whose calls either
      return or raise an [Exception]. *)

From Stdlib Require Import ZArith Lia Bool Ascii String DecimalString List.
From Stdlib Require Import Sorted Permutation DecimalZ.
From stdpp Require Import gmap strings.
Import ListNotations.

Local Open Scope Z_scope.

(* stdpp keeps [simpl] from unfolding the concatenation of strings; the
   proofs below compute with it. *)
Local Arguments String.append !_ _ / : simpl nomatch.

(** ** Python string primitives *)

Module Py.

(** [len(s)] *)
Definition len (s : string) : Z := Z.of_nat (String.length s).

(** Truthiness of a string: [bool(s)]. *)
Definition truthy (s : string) : bool :=
  match s with EmptyString => false | String _ _ => true end.

(** [s or d] *)
Definition or_else (s d : string) : string := if truthy s then s else d.

(** [s or None] *)
Definition or_none (s : string) : option string :=
  if truthy s then Some s else None.

(** Truthiness of an optional string attribute (absent or empty is
    false). *)
Definition truthy_opt (o : option string) : bool :=
  match o with Some s => truthy s | None => false end.

(** Normalisation of a slice bound against a sequence of length [n]. *)
Definition clamp (n i : Z) : Z :=
  if i <? 0 then Z.max 0 (i + n) else Z.min i n.

(** [s[a:b]] *)
Definition slice (s : string) (a b : Z) : string :=
  let n := len s in
  let a' := clamp n a in
  let b' := clamp n b in
  if a' <? b' then String.substring (Z.to_nat a') (Z.to_nat (b' - a')) s
  else EmptyString.

(** [s[a:]] *)
Definition slice_from (s : string) (a : Z) : string := slice s a (len s).

(** [c.lower()] on one code point of U+0000 .. U+00FF: the ASCII capitals
    and the Latin-1 capitals U+00C0 .. U+00DE, U+00D7 excepted. *)
Definition lower_char (c : ascii) : ascii :=
  let n := nat_of_ascii c in
  if ((65 <=? n) && (n <=? 90))%nat then ascii_of_nat (n + 32)
  else if ((192 <=? n) && (n <=? 222) && negb (n =? 215))%nat
       then ascii_of_nat (n + 32)
  else c.

(** [s.lower()] *)
Fixpoint lower (s : string) : string :=
  match s with
  | EmptyString => EmptyString
  | String c s' => String (lower_char c) (lower s')
  end.

(** [needle in hay] *)
Fixpoint str_in (needle hay : string) : bool :=
  String.prefix needle hay ||
  match hay with
  | EmptyString => false
  | String _ hay' => str_in needle hay'
  end.

(** [s.rstrip(c)] for a one-character set. *)
Fixpoint rstrip (c : ascii) (s : string) : string :=
  match s with
  | EmptyString => EmptyString
  | String a s' =>
      match rstrip c s' with
      | EmptyString => if Ascii.eqb a c then EmptyString else String a EmptyString
      | r => String a r
      end
  end.

(** [str(n)] for an [int]. *)
Definition str (n : Z) : string := NilZero.string_of_int (Z.to_int n).

(** [join] of the pieces on the empty separator. *)
Definition join (pieces : list string) : string :=
  fold_right String.append EmptyString pieces.

(** [s.find(c)] for a character, [None] for -1. *)
Fixpoint find_char (c : ascii) (s : string) : option nat :=
  match s with
  | EmptyString => None
  | String a s' =>
      if Ascii.eqb a c then Some O else option_map S (find_char c s')
  end.

(** [c in s] for a character. *)
Definition has_char (c : ascii) (s : string) : bool :=
  match find_char c s with Some _ => true | None => false end.

End Py.

(** ** [urllib.parse.quote_plus] *)

Module Quote.

(** The characters [quote] never escapes: letters, digits and [_.-~]. *)
Definition always_safe (c : ascii) : bool :=
  let n := nat_of_ascii c in
  (((65 <=? n) && (n <=? 90)) || ((97 <=? n) && (n <=? 122)) ||
   ((48 <=? n) && (n <=? 57)) ||
   (n =? 95) || (n =? 46) || (n =? 45) || (n =? 126))%nat.

Definition hex_digit (n : nat) : ascii :=
  if (n <? 10)%nat then ascii_of_nat (48 + n) else ascii_of_nat (55 + n).

(** ["%{:02X}".format(b)] for a byte [b]. *)
Definition pct (b : nat) : string :=
  String "%" (String (hex_digit (b / 16)) (String (hex_digit (b mod 16)) EmptyString)).

(** The UTF-8 encoding of a code point below U+0100. *)
Definition utf8 (c : ascii) : list nat :=
  let n := nat_of_ascii c in
  if (n <? 128)%nat then [n] else [192 + n / 64; 128 + n mod 64]%nat.

(** What [quote_plus] emits for one character: a safe character as it
    is, a space as [+], anything else as the escapes of its UTF-8
    bytes. *)
Definition quote_char (c : ascii) : string :=
  if always_safe c then String c EmptyString
  else if Ascii.eqb c " " then "+"
  else Py.join (map pct (utf8 c)).

Fixpoint quote_plus (s : string) : string :=
  match s with
  | EmptyString => EmptyString
  | String c s' => quote_char c +:+ quote_plus s'
  end.

(** The way back, as [urllib.parse.unquote_plus] reads an output of
    [quote_plus]: a [+] is a space, an escape is a byte, and the bytes are
    decoded from UTF-8. *)
Definition hex_value (c : ascii) : option nat :=
  let n := nat_of_ascii c in
  if ((48 <=? n) && (n <=? 57))%nat then Some (n - 48)%nat
  else if ((65 <=? n) && (n <=? 70))%nat then Some (n - 55)%nat
  else if ((97 <=? n) && (n <=? 102))%nat then Some (n - 87)%nat
  else None.

Fixpoint pct_decode (s : string) : list nat :=
  match s with
  | EmptyString => []
  | String c s' =>
      if Ascii.eqb c "+" then 32%nat :: pct_decode s'
      else if Ascii.eqb c "%" then
        match s' with
        | String h (String l rest) =>
            match hex_value h, hex_value l with
            | Some a, Some b => (16 * a + b)%nat :: pct_decode rest
            | _, _ => nat_of_ascii c :: pct_decode s'
            end
        | _ => nat_of_ascii c :: pct_decode s'
        end
      else nat_of_ascii c :: pct_decode s'
  end.

Fixpoint utf8_decode (bs : list nat) : string :=
  match bs with
  | [] => EmptyString
  | b :: bs' =>
      if (b <? 128)%nat then String (ascii_of_nat b) (utf8_decode bs')
      else
        match bs' with
        | b2 :: rest =>
            String (ascii_of_nat ((b - 192) * 64 + (b2 - 128))) (utf8_decode rest)
        | [] => EmptyString
        end
  end.

Definition unquote_plus (s : string) : string := utf8_decode (pct_decode s).

End Quote.

(** ** [urllib.parse.urlparse] and [str.format]

    Both are library code.  The embedding of [main.py] takes them as
    parameters; the two functions of this module are models of them on
    which the code is evaluated at concrete inputs. *)

Module Lib.

Definition c0_or_space (c : ascii) : bool := (nat_of_ascii c <=? 32)%nat.

Fixpoint lstrip_c0 (s : string) : string :=
  match s with
  | EmptyString => EmptyString
  | String c s' => if c0_or_space c then lstrip_c0 s' else s
  end.

(** Tab, line feed and carriage return are removed from the URL. *)
Definition unsafe_byte (c : ascii) : bool :=
  let n := nat_of_ascii c in ((n =? 9) || (n =? 10) || (n =? 13))%nat.

Fixpoint remove_unsafe (s : string) : string :=
  match s with
  | EmptyString => EmptyString
  | String c s' => if unsafe_byte c then remove_unsafe s' else String c (remove_unsafe s')
  end.

Definition is_alpha (c : ascii) : bool :=
  let n := nat_of_ascii c in
  (((65 <=? n) && (n <=? 90)) || ((97 <=? n) && (n <=? 122)))%nat.

Definition scheme_char (c : ascii) : bool :=
  let n := nat_of_ascii c in
  (is_alpha c || ((48 <=? n) && (n <=? 57)) ||
   (n =? 43) || (n =? 45) || (n =? 46))%nat.

Fixpoint all_chars (p : ascii -> bool) (s : string) : bool :=
  match s with
  | EmptyString => true
  | String c s' => p c && all_chars p s'
  end.

(** The URL without its [scheme:] prefix, when it has one. *)
Definition drop_scheme (url : string) : string :=
  match url, Py.find_char ":" url with
  | String c0 _, Some (S i) =>
      if is_alpha c0 && all_chars scheme_char (String.substring 0 (S i) url)
      then String.substring (S (S i)) (String.length url) url
      else url
  | _, _ => url
  end.

(** The authority runs up to the first of [/], [?] and [#]. *)
Fixpoint upto_delim (s : string) : string :=
  match s with
  | EmptyString => EmptyString
  | String c s' =>
      if Ascii.eqb c "/" || Ascii.eqb c "?" || Ascii.eqb c "#" then EmptyString
      else String c (upto_delim s')
  end.

(** [urlparse(url).netloc], or [None] where [urlparse] raises
    [ValueError]: the URL is stripped of leading control characters and
    of tabs and line breaks, the scheme is split off, and the text
    between a leading [//] and the next delimiter is the netloc; a
    netloc with one square bracket and not the other is rejected
    ("Invalid IPv6 URL").  The further checks CPython makes on a
    bracketed host and on a host outside ASCII are not part of the
    model: such hosts are accepted as they are. *)
Definition urlparse_netloc (url : string) : option string :=
  let url := drop_scheme (remove_unsafe (lstrip_c0 url)) in
  if String.prefix "//" url then
    let netloc := upto_delim (String.substring 2 (String.length url) url) in
    let lb := Py.has_char "[" netloc in
    let rb := Py.has_char "]" netloc in
    if (lb && negb rb) || (rb && negb lb) then None else Some netloc
  else Some EmptyString.

(** Lookup in the keyword arguments of [format]. *)
Fixpoint lookup_kw (name : string) (subs : list (string * string)) : option string :=
  match subs with
  | [] => None
  | (k, v) :: subs' => if String.eqb k name then Some v else lookup_kw name subs'
  end.

Definition plain_name_char (c : ascii) : bool :=
  negb (Ascii.eqb c "{" || Ascii.eqb c "}" || Ascii.eqb c "!" ||
        Ascii.eqb c ":" || Ascii.eqb c "." || Ascii.eqb c "[").

(** Reads a field name up to its closing brace: the name and the rest of
    the template after the brace. *)
Fixpoint read_field (s : string) : option (string * string) :=
  match s with
  | EmptyString => None
  | String c s' =>
      if Ascii.eqb c "}" then Some (EmptyString, s')
      else if plain_name_char c then
        match read_field s' with
        | Some (name, rest) => Some (String c name, rest)
        | None => None
        end
      else None
  end.

(** [template.format] with keyword arguments [subs], on templates whose replacement fields are
    plain keyword names; [None] where [format] raises: a name that is
    not a key ([KeyError]), an empty field (positional, [IndexError]),
    a brace with no partner ([ValueError]).  [{{] and [}}] stand for
    one brace.  Fields with a conversion, a format specification, an
    attribute or an index are outside the model, which gives [None]
    for them. *)
Fixpoint format_fuel (fuel : nat) (template : string)
    (subs : list (string * string)) : option string :=
  match fuel with
  | O => None
  | S fuel' =>
      match template with
      | EmptyString => Some EmptyString
      | String "{" (String "{" rest) =>
          option_map (String "{") (format_fuel fuel' rest subs)
      | String "}" (String "}" rest) =>
          option_map (String "}") (format_fuel fuel' rest subs)
      | String "}" _ => None
      | String "{" rest =>
          match read_field rest with
          | Some (String c name, rest') =>
              match lookup_kw (String c name) subs, format_fuel fuel' rest' subs with
              | Some v, Some out => Some (v +:+ out)
              | _, _ => None
              end
          | _ => None
          end
      | String c rest => option_map (String c) (format_fuel fuel' rest subs)
      end
  end.

Definition format_plain_fields (template : string)
    (subs : list (string * string)) : option string :=
  format_fuel (S (String.length template)) template subs.

End Lib.

(** ** Data model: the Telegram objects [main.py] reads and builds *)

Module MessageEntity.
Record t := mk {
  type : string;
  offset : Z;
  length : Z;
  url : option string
}.
End MessageEntity.

Module InlineKeyboardButton.
Record t := mk {
  text : string;
  url : option string;
  callback_data : option string
}.
End InlineKeyboardButton.

Module InlineKeyboardMarkup.
Record t := mk {
  inline_keyboard : list (list InlineKeyboardButton.t)
}.
End InlineKeyboardMarkup.

Module Message.
(** Media are held by their [file_id]; [photo] lists the sizes of a
    photo, the largest last. *)
Record t := mk {
  chat_id : Z;
  message_id : Z;
  text : option string;
  caption : option string;
  entities : list MessageEntity.t;
  caption_entities : list MessageEntity.t;
  reply_markup : option InlineKeyboardMarkup.t;
  photo : list string;
  document : option string;
  video : option string;
  audio : option string;
  voice : option string;
  sticker : option string
}.
End Message.

Module Update.
Record t := mk { channel_post : option Message.t }.
End Update.

(** The configuration read from the environment when the module is
    loaded; [DEST_LIST] is [DEST_CHANNELS] split at commas. *)
Record Config := {
  SOURCE_CHANNEL_ID : string;
  DEST_LIST : list string;
  REDIRECT_BASE : string;
  CAPTION_TEMPLATE : string;
  FOOTER_TEXT : string
}.

(** A call of the Telegram client, with the arguments [main.py] passes. *)
Inductive BotCall :=
| send_photo (chat_id photo : string) (caption : option string)
    (reply_markup : option InlineKeyboardMarkup.t)
| send_document (chat_id document : string) (caption : option string)
    (reply_markup : option InlineKeyboardMarkup.t)
| send_video (chat_id video : string) (caption : option string)
    (reply_markup : option InlineKeyboardMarkup.t)
| send_audio (chat_id audio : string) (caption : option string)
    (reply_markup : option InlineKeyboardMarkup.t)
| send_voice (chat_id voice : string) (caption : option string)
    (reply_markup : option InlineKeyboardMarkup.t)
| send_sticker (chat_id sticker : string)
| send_message (chat_id text : string)
    (reply_markup : option InlineKeyboardMarkup.t)
| forward_message (chat_id : string) (from_chat_id message_id : Z).

(** The destination a call is addressed to and the markup it carries. *)
Definition call_dest (c : BotCall) : string :=
  match c with
  | send_photo d _ _ _ | send_document d _ _ _ | send_video d _ _ _
  | send_audio d _ _ _ | send_voice d _ _ _ | send_sticker d _
  | send_message d _ _ | forward_message d _ _ => d
  end.

Definition call_markup (c : BotCall) : option InlineKeyboardMarkup.t :=
  match c with
  | send_photo _ _ _ m | send_document _ _ _ m | send_video _ _ _ m
  | send_audio _ _ _ m | send_voice _ _ _ m | send_message _ _ m => m
  | send_sticker _ _ | forward_message _ _ _ => None
  end.

(** What one run of the handler does to the outside, in order: a query of
    the dedupe table with its answer, a client call with whether it
    returned ([true]) or raised ([false]), an insertion into the table. *)
Inductive Event :=
| EvExists (chat_id : string) (msg_id : Z) (found : bool)
| EvCall (c : BotCall) (ok : bool)
| EvMark (chat_id : string) (msg_id : Z).

Definition is_call (e : Event) : bool :=
  match e with EvCall _ _ => true | _ => false end.

Definition is_mark (e : Event) : bool :=
  match e with EvMark _ _ => true | _ => false end.

(** The state outside the handler: the table [forwarded] and the
    client. *)
Record World (Bot : Type) := mkWorld {
  db : gset (string * Z);
  bot : Bot
}.
Arguments mkWorld {Bot} _ _.
Arguments db {Bot} _.
Arguments bot {Bot} _.

(** [e] is a client call addressed to [dest]. *)
Definition call_to (dest : string) (e : Event) : Prop :=
  exists c ok, e = EvCall c ok /\ call_dest c = dest.

(** The trace [tr] as a run of the client from the state [b] to the
    state [b']: each call of the trace is put to the client in the state
    the calls before it left, the outcome recorded with it is the answer
    of the client, and [b'] is the state after the last call.  Queries
    and insertions do not touch the client. *)
Inductive client_run {Bot : Type} (bot_call : Bot -> BotCall -> Bot * bool)
    : Bot -> list Event -> Bot -> Prop :=
| client_run_nil b : client_run bot_call b [] b
| client_run_call b c tr b' :
    client_run bot_call (fst (bot_call b c)) tr b' ->
    client_run bot_call b (EvCall c (snd (bot_call b c)) :: tr) b'
| client_run_exists b chat mid found tr b' :
    client_run bot_call b tr b' ->
    client_run bot_call b (EvExists chat mid found :: tr) b'
| client_run_mark b chat mid tr b' :
    client_run bot_call b tr b' ->
    client_run bot_call b (EvMark chat mid :: tr) b'.

(** ** The sqlite dedupe table *)

(** [already_forwarded], main.py lines 54-60. *)
Definition already_forwarded (tbl : gset (string * Z)) (chat_id msg_id : Z) : bool :=
  bool_decide ((Py.str chat_id, msg_id) ∈ tbl).

(** [mark_forwarded], main.py lines 62-67: INSERT OR REPLACE on the
    primary key. *)
Definition mark_forwarded (tbl : gset (string * Z)) (chat_id msg_id : Z)
    : gset (string * Z) :=
  {[ (Py.str chat_id, msg_id) ]} ∪ tbl.

(** ** The functions of main.py *)

Definition TERABOX_RE_FRAGMENT : string := "terabox".

(** [sorted(entities, key=lambda e: e.offset)]: a stable sort. *)
Fixpoint insert_by_offset (x : MessageEntity.t) (l : list MessageEntity.t)
    : list MessageEntity.t :=
  match l with
  | [] => [x]
  | y :: l' =>
      if MessageEntity.offset x <=? MessageEntity.offset y then x :: y :: l'
      else y :: insert_by_offset x l'
  end.

Definition sorted_by_offset (l : list MessageEntity.t) : list MessageEntity.t :=
  fold_right insert_by_offset [] l.

Section Relay.

(** [urlparse(url).netloc], [None] where [urlparse] raises. *)
Variable urlparse : string -> option string.
(** [template.format] on keyword arguments, [None] where it raises. *)
Variable format : string -> list (string * string) -> option string.
Variable cfg : Config.
(** The client: a call moves it to a new state and returns or raises. *)
Variable Bot : Type.
Variable bot_call : Bot -> BotCall -> Bot * bool.

(** main.py lines 72-77. *)
Definition is_terabox_url (url : string) : bool :=
  match urlparse url with
  | Some netloc =>
      Py.str_in TERABOX_RE_FRAGMENT (Py.lower (Py.or_else netloc EmptyString))
      || Py.str_in TERABOX_RE_FRAGMENT (Py.lower url)
  | None => false
  end.

(** main.py lines 79-83. *)
Definition build_redirect (original_url : string) : string :=
  if negb (Py.truthy (REDIRECT_BASE cfg)) then original_url
  else
    let encoded := Quote.quote_plus original_url in
    Py.rstrip "/" (REDIRECT_BASE cfg) +:+ "/?u=" +:+ encoded.

(** The URL as it is sent on: [build_redirect(u) if is_terabox_url(u)
    else u]. *)
Definition redirect_if_terabox (u : string) : string :=
  if is_terabox_url u then build_redirect u else u.

(** The piece [replace_entities_in_text] appends for one entity, main.py
    lines 95-101. *)
Definition entity_piece (text : string) (ent : MessageEntity.t) : string :=
  let s := MessageEntity.offset ent in
  let e := s + MessageEntity.length ent in
  let ent_text := Py.slice text s e in
  if String.eqb (MessageEntity.type ent) "url" then
    redirect_if_terabox ent_text
  else if String.eqb (MessageEntity.type ent) "text_link"
          && Py.truthy_opt (MessageEntity.url ent) then
    match MessageEntity.url ent with
    | Some u => redirect_if_terabox u
    | None => ent_text
    end
  else ent_text.

(** One turn of the loop of [replace_entities_in_text] on the state
    [(pieces, last)], main.py lines 92-102. *)
Definition replace_step (text : string) (st : list string * Z)
    (ent : MessageEntity.t) : list string * Z :=
  let '(pieces, last) := st in
  let s := MessageEntity.offset ent in
  let e := s + MessageEntity.length ent in
  (pieces ++ [Py.slice text last s] ++ [entity_piece text ent], e).

(** main.py lines 86-104. *)
Definition replace_entities_in_text (text : string)
    (entities : option (list MessageEntity.t)) : string :=
  match entities with
  | None | Some [] => Py.or_else text EmptyString
  | Some ents =>
      let '(pieces, last) :=
        fold_left (replace_step text) (sorted_by_offset ents) ([], 0) in
      Py.join (pieces ++ [Py.slice_from text last])
  end.

(** One turn of the loop of [extract_terabox_links_from_entities],
    main.py lines 111-119. *)
Definition extract_step (text : string) (links : list string)
    (ent : MessageEntity.t) : list string :=
  if String.eqb (MessageEntity.type ent) "url" then
    let s := MessageEntity.offset ent in
    let e := s + MessageEntity.length ent in
    let raw := Py.slice text s e in
    if is_terabox_url raw then links ++ [raw] else links
  else if String.eqb (MessageEntity.type ent) "text_link"
          && Py.truthy_opt (MessageEntity.url ent) then
    match MessageEntity.url ent with
    | Some u => if is_terabox_url u then links ++ [u] else links
    | None => links
    end
  else links.

(** main.py lines 106-120. *)
Definition extract_terabox_links_from_entities (text : string)
    (entities : option (list MessageEntity.t)) : list string :=
  match entities with
  | None | Some [] => []
  | Some ents => fold_left (extract_step text) ents []
  end.

(** The button built for [btn], main.py lines 129-133. *)
Definition convert_button (btn : InlineKeyboardButton.t) : InlineKeyboardButton.t :=
  if Py.truthy_opt (InlineKeyboardButton.url btn) then
    match InlineKeyboardButton.url btn with
    | Some u =>
        InlineKeyboardButton.mk
          (Py.or_else (InlineKeyboardButton.text btn) "link")
          (Some (redirect_if_terabox u)) None
    | None => btn
    end
  else
    InlineKeyboardButton.mk
      (Py.or_else (InlineKeyboardButton.text btn) "btn")
      None
      (Some (if Py.truthy_opt (InlineKeyboardButton.callback_data btn)
             then default "noop" (InlineKeyboardButton.callback_data btn)
             else "noop")).

(** The inner loop, main.py lines 127-133. *)
Definition convert_row (row : list InlineKeyboardButton.t)
    : list InlineKeyboardButton.t :=
  fold_left (fun new_row btn => new_row ++ [convert_button btn]) row [].

(** main.py lines 122-135. *)
Definition convert_inline_markup (reply_markup : option InlineKeyboardMarkup.t)
    : option InlineKeyboardMarkup.t :=
  match reply_markup with
  | None => None
  | Some m =>
      Some (InlineKeyboardMarkup.mk
              (fold_left (fun rows row => rows ++ [convert_row row])
                         (InlineKeyboardMarkup.inline_keyboard m) []))
  end.

(** The separator of the fallback caption as main.py line 148 writes
    it: a backslash, [n], a backslash, [n]. *)
Definition fallback_separator : string := "\n\n".

(** main.py lines 137-148. *)
Definition build_caption (original_text src_channel : string) (src_msg_id : Z)
    : string :=
  let subs :=
    [ ("original_text", Py.or_else original_text EmptyString);
      ("source_channel", Py.or_else src_channel EmptyString);
      ("source_msg_id", Py.str src_msg_id);
      ("footer", Py.or_else (FOOTER_TEXT cfg) EmptyString) ] in
  match format (CAPTION_TEMPLATE cfg) subs with
  | Some rendered => rendered
  | None =>
      Py.or_else original_text EmptyString +:+ fallback_separator
      +:+ Py.or_else (FOOTER_TEXT cfg) EmptyString
  end.

(** The text the handler works on and its entities, main.py lines
    169-176: the text if there is one, the caption otherwise. *)
Definition resolve_text (msg : Message.t)
    : string * option (list MessageEntity.t) :=
  if Py.truthy_opt (Message.text msg) then
    (default EmptyString (Message.text msg), Some (Message.entities msg))
  else if Py.truthy_opt (Message.caption msg) then
    (default EmptyString (Message.caption msg), Some (Message.caption_entities msg))
  else (EmptyString, None).

Definition open_button (l : string) : InlineKeyboardButton.t :=
  InlineKeyboardButton.mk "Open (Terabox)" (Some (build_redirect l)) None.

(** One turn of the loop over [terabox_links] on the state
    [(seen, tb_buttons)], main.py lines 186-190. *)
Definition tb_step (st : gset string * list InlineKeyboardButton.t)
    (l : string) : gset string * list InlineKeyboardButton.t :=
  let '(seen, tb_buttons) := st in
  if bool_decide (l ∈ seen) then st
  else ({[ l ]} ∪ seen, tb_buttons ++ [open_button l]).

Definition tb_buttons_of (terabox_links : list string)
    : list InlineKeyboardButton.t :=
  snd (fold_left tb_step terabox_links (∅, [])).

(** The markup that is sent, main.py lines 181-196. *)
Definition final_markup (reply_markup : option InlineKeyboardMarkup.t)
    (terabox_links : list string) : option InlineKeyboardMarkup.t :=
  let inline_kb :=
    match reply_markup with
    | Some _ => convert_inline_markup reply_markup
    | None => None
    end in
  match terabox_links with
  | [] => inline_kb
  | _ :: _ =>
      let tb_buttons := tb_buttons_of terabox_links in
      match inline_kb with
      | Some kb =>
          Some (InlineKeyboardMarkup.mk
                  (InlineKeyboardMarkup.inline_keyboard kb ++ [tb_buttons]))
      | None => Some (InlineKeyboardMarkup.mk [tb_buttons])
      end
  end.

(** One client call and its record in the trace. *)
Definition call1 (b : Bot) (c : BotCall) : Bot * list Event :=
  let '(b', ok) := bot_call b c in (b', [EvCall c ok]).

(** The body of the [try] for one destination, main.py lines 202-220.
    A call that raises ends the body: the [except] clause logs and the
    loop goes on. *)
Definition deliver (msg : Message.t) (caption_to_send : string)
    (inline_kb : option InlineKeyboardMarkup.t) (dest : string) (b : Bot)
    : Bot * list Event :=
  let cap := Py.or_none caption_to_send in
  match rev (Message.photo msg) with
  | largest :: _ => call1 b (send_photo dest largest cap inline_kb)
  | [] =>
  match Message.document msg with
  | Some f => call1 b (send_document dest f cap inline_kb)
  | None =>
  match Message.video msg with
  | Some f => call1 b (send_video dest f cap inline_kb)
  | None =>
  match Message.audio msg with
  | Some f => call1 b (send_audio dest f cap inline_kb)
  | None =>
  match Message.voice msg with
  | Some f => call1 b (send_voice dest f cap inline_kb)
  | None =>
  match Message.sticker msg with
  | Some f =>
      let '(b1, ok) := bot_call b (send_sticker dest f) in
      if ok && Py.truthy caption_to_send then
        let '(b2, tr) := call1 b1 (send_message dest caption_to_send None) in
        (b2, EvCall (send_sticker dest f) ok :: tr)
      else (b1, [EvCall (send_sticker dest f) ok])
  | None =>
      if Py.truthy caption_to_send then
        call1 b (send_message dest caption_to_send inline_kb)
      else
        call1 b (forward_message dest (Message.chat_id msg) (Message.message_id msg))
  end end end end end end.

(** The loop over [DEST_LIST], main.py lines 200-223. *)
Definition deliver_all (msg : Message.t) (caption_to_send : string)
    (inline_kb : option InlineKeyboardMarkup.t) (dests : list string) (b : Bot)
    : Bot * list Event :=
  fold_left
    (fun st dest =>
       let '(b0, tr) := st in
       let '(b1, tr1) := deliver msg caption_to_send inline_kb dest b0 in
       (b1, tr ++ tr1))
    dests (b, []).

(** The source filter, main.py line 159. *)
Definition ignored_source (src_chat_id : Z) : bool :=
  Py.truthy (SOURCE_CHANNEL_ID cfg)
  && negb (String.eqb (Py.str src_chat_id) (SOURCE_CHANNEL_ID cfg)).

(** main.py lines 151-225. *)
Definition handle_channel_post (w : World Bot) (update : Update.t)
    : World Bot * list Event :=
  match Update.channel_post update with
  | None => (w, [])
  | Some msg =>
      let src_chat_id := Message.chat_id msg in
      let src_msg_id := Message.message_id msg in
      if ignored_source src_chat_id then (w, [])
      else if already_forwarded (db w) src_chat_id src_msg_id then
        (w, [EvExists (Py.str src_chat_id) src_msg_id true])
      else
        let '(original_text, entities) := resolve_text msg in
        let new_text := replace_entities_in_text original_text entities in
        let terabox_links :=
          extract_terabox_links_from_entities original_text entities in
        let inline_kb := final_markup (Message.reply_markup msg) terabox_links in
        let caption_to_send :=
          build_caption new_text (Py.str src_chat_id) src_msg_id in
        let '(b', calls) :=
          deliver_all msg caption_to_send inline_kb (DEST_LIST cfg) (bot w) in
        (mkWorld (mark_forwarded (db w) src_chat_id src_msg_id) b',
         EvExists (Py.str src_chat_id) src_msg_id false
           :: calls ++ [EvMark (Py.str src_chat_id) src_msg_id])
  end.

(** The updates of the queue handled one after the other. *)
Definition handle_all (w : World Bot) (updates : list Update.t)
    : World Bot * list Event :=
  fold_left
    (fun st u =>
       let '(w0, tr) := st in
       let '(w1, tr1) := handle_channel_post w0 u in
       (w1, tr ++ tr1))
    updates (w, []).

(** ** Notions the statements are written in *)

(** [marker] occurs in [s] up to the case of letters. *)
Definition occurs_ci (marker s : string) : Prop :=
  exists pre mid post,
    s = pre +:+ mid +:+ post /\ Py.lower mid = Py.lower marker.

(** [n] slashes. *)
Fixpoint slashes (n : nat) : string :=
  match n with O => EmptyString | S n' => String "/" (slashes n') end.

(** [stem] is [base] with its trailing slashes stripped. *)
Definition stripped_of_slashes (base stem : string) : Prop :=
  (exists n, base = stem +:+ slashes n)
  /\ (forall t, stem <> t +:+ "/").

(** The URLs a range puts forward: the text it covers for a [url]
    range, its target for a [text_link] range that has one (an empty
    target is no target), nothing for any other range. *)
Definition candidate_urls (text : string) (ent : MessageEntity.t) : list string :=
  if String.eqb (MessageEntity.type ent) "url" then
    [Py.slice text (MessageEntity.offset ent)
              (MessageEntity.offset ent + MessageEntity.length ent)]
  else if String.eqb (MessageEntity.type ent) "text_link" then
    match MessageEntity.url ent with
    | Some u => if Py.truthy u then [u] else []
    | None => []
    end
  else [].

(** Each string once, at the place of its first occurrence. *)
Fixpoint distinct (l : list string) : list string :=
  match l with
  | [] => []
  | x :: l' => x :: List.filter (fun y => negb (String.eqb y x)) (distinct l')
  end.

(** What the specification asks of the button [b'] that replaces [b]:
    a button with a url keeps its label ([link] for an empty one) and
    takes the redirected url; a button without a url keeps its action
    and its label ([btn] for an empty one); a button with neither gets
    the action [noop]. *)
Inductive converted (b : InlineKeyboardButton.t) : InlineKeyboardButton.t -> Prop :=
| converted_url u :
    InlineKeyboardButton.url b = Some u -> u <> EmptyString ->
    converted b (InlineKeyboardButton.mk
                   (if decide (InlineKeyboardButton.text b = EmptyString)
                    then "link" else InlineKeyboardButton.text b)
                   (Some (if is_terabox_url u then build_redirect u else u))
                   None)
| converted_action d :
    ~ (exists u, InlineKeyboardButton.url b = Some u /\ u <> EmptyString) ->
    InlineKeyboardButton.callback_data b = Some d -> d <> EmptyString ->
    converted b (InlineKeyboardButton.mk
                   (if decide (InlineKeyboardButton.text b = EmptyString)
                    then "btn" else InlineKeyboardButton.text b)
                   None (Some d))
| converted_neither :
    ~ (exists u, InlineKeyboardButton.url b = Some u /\ u <> EmptyString) ->
    ~ (exists d, InlineKeyboardButton.callback_data b = Some d /\ d <> EmptyString) ->
    converted b (InlineKeyboardButton.mk
                   (if decide (InlineKeyboardButton.text b = EmptyString)
                    then "btn" else InlineKeyboardButton.text b)
                   None (Some "noop")).

End Relay.

(** ** Configurations, posts and clients on which the code is evaluated *)

Module Scenario.

(** Two newline characters. *)
Definition two_newlines : string := String "010" (String "010" EmptyString).

(** The defaults of main.py lines 15-19 with two destinations and a
    redirect base. *)
Definition with_base : Config := {|
  SOURCE_CHANNEL_ID := EmptyString;
  DEST_LIST := ["@first"; "@second"];
  REDIRECT_BASE := "https://go.example.com";
  CAPTION_TEMPLATE := "{original_text}\n\n{footer}";
  FOOTER_TEXT := "Shared via MyBrand"
|}.

(** The same without a redirect base. *)
Definition without_base : Config := {|
  SOURCE_CHANNEL_ID := EmptyString;
  DEST_LIST := ["@first"; "@second"];
  REDIRECT_BASE := EmptyString;
  CAPTION_TEMPLATE := "{original_text}\n\n{footer}";
  FOOTER_TEXT := "Shared via MyBrand"
|}.

(** A template that names a placeholder [format] is not given. *)
Definition unknown_placeholder : Config := {|
  SOURCE_CHANNEL_ID := EmptyString;
  DEST_LIST := ["@first"; "@second"];
  REDIRECT_BASE := "https://go.example.com";
  CAPTION_TEMPLATE := "{unknown}";
  FOOTER_TEXT := "Shared via MyBrand"
|}.

(** A source filter that lets chat 42 through and one that does not. *)
Definition only_chat_42 : Config := {|
  SOURCE_CHANNEL_ID := "42";
  DEST_LIST := ["@first"; "@second"];
  REDIRECT_BASE := "https://go.example.com";
  CAPTION_TEMPLATE := "{original_text}\n\n{footer}";
  FOOTER_TEXT := "Shared via MyBrand"
|}.

Definition only_chat_99 : Config := {|
  SOURCE_CHANNEL_ID := "99";
  DEST_LIST := ["@first"; "@second"];
  REDIRECT_BASE := "https://go.example.com";
  CAPTION_TEMPLATE := "{original_text}\n\n{footer}";
  FOOTER_TEXT := "Shared via MyBrand"
|}.

(** A client on which every call raises, and one that counts its calls
    and raises on those addressed to [@first]. *)
Definition always_raises (b : unit) (c : BotCall) : unit * bool := (b, false).

Definition first_raises (n : nat) (c : BotCall) : nat * bool :=
  (S n, negb (String.eqb (call_dest c) "@first")).

Definition plain_url_text : string := "Check this https://teraboxfiles.com/abc out".

Definition plain_url_range : MessageEntity.t :=
  MessageEntity.mk "url" 11 28 None.

Definition text_link_range : MessageEntity.t :=
  MessageEntity.mk "text_link" 4 4 (Some "https://terabox.com/f"%string).

(** A text post of chat 42 with message id 7 and one tracked link. *)
Definition text_post : Message.t :=
  Message.mk 42 7 (Some plain_url_text) None [plain_url_range] [] None
             [] None None None None None.

Definition action_buttons : InlineKeyboardMarkup.t :=
  InlineKeyboardMarkup.mk
    [[InlineKeyboardButton.mk "Like" None (Some "like"%string);
      InlineKeyboardButton.mk "Share" None (Some "share"%string)]].

(** A sticker post with a caption that holds a tracked link, and
    buttons. *)
Definition sticker_post : Message.t :=
  Message.mk 42 8 None (Some plain_url_text) [] [plain_url_range]
             (Some action_buttons) [] None None None None (Some "STICKER"%string).

Definition empty_world {Bot : Type} (b : Bot) : World Bot := mkWorld ∅ b.

(** The post of chat 42 with message id 7 handled twice, with another
    post handled in between, on the client [first_raises]. *)
Definition handle_42 : World nat -> Update.t -> World nat * list Event :=
  handle_channel_post Lib.urlparse_netloc Lib.format_plain_fields
    only_chat_42 nat first_raises.

Definition post_7 : Update.t := Update.mk (Some text_post).

Definition after_first : World nat := fst (handle_42 (empty_world O) post_7).

Definition after_between : World nat :=
  fst (handle_all Lib.urlparse_netloc Lib.format_plain_fields
         only_chat_42 nat first_raises after_first
         [Update.mk (Some sticker_post)]).

(** The same post handled once on the client [always_raises]. *)
Definition all_fail : World unit * list Event :=
  handle_channel_post Lib.urlparse_netloc Lib.format_plain_fields
    with_base unit always_raises (empty_world tt) post_7.

(** A text whose last word is a link, to a tracked target and to one
    that is not. *)
Definition link_text : string := "see here".

Definition untracked_link_range : MessageEntity.t :=
  MessageEntity.mk "text_link" 4 4 (Some "https://example.com/f"%string).

Definition rewritten_link_text : string :=
  replace_entities_in_text Lib.urlparse_netloc with_base link_text
    (Some [text_link_range]).

(** The caption built under the template with the unknown
    placeholder. *)
Definition fallback_caption : string :=
  build_caption Lib.format_plain_fields unknown_placeholder "hello" "42" 7.

End Scenario.

(** ** The rest of main.py: start-up values and the webhook endpoint *)

Module Startup.

(** The characters [str.strip()] removes, among U+0000 .. U+00FF. *)
Definition is_space (c : ascii) : bool :=
  let n := nat_of_ascii c in
  (((9 <=? n) && (n <=? 13)) || ((28 <=? n) && (n <=? 32))
   || (n =? 133) || (n =? 160))%nat.

Fixpoint lstrip (s : string) : string :=
  match s with
  | EmptyString => EmptyString
  | String c s' => if is_space c then lstrip s' else s
  end.

Fixpoint rstrip (s : string) : string :=
  match s with
  | EmptyString => EmptyString
  | String a s' =>
      match rstrip s' with
      | EmptyString => if is_space a then EmptyString else String a EmptyString
      | r => String a r
      end
  end.

(** [s.strip()] *)
Definition strip (s : string) : string := rstrip (lstrip s).

(** [s.split(",")] *)
Fixpoint split_comma (s : string) : list string :=
  match s with
  | EmptyString => [EmptyString]
  | String c s' =>
      if Ascii.eqb c "," then EmptyString :: split_comma s'
      else
        match split_comma s' with
        | piece :: pieces => String c piece :: pieces
        | [] => [String c EmptyString]
        end
  end.

(** [",".join(names)] *)
Definition join_comma (names : list string) : string := String.concat "," names.

(** [DEST_LIST], main.py line 34:
    [[d.strip() for d in DEST_CHANNELS.split(",") if d.strip()]]. *)
Definition dest_list (DEST_CHANNELS : string) : list string :=
  map strip (List.filter (fun d => Py.truthy (strip d)) (split_comma DEST_CHANNELS)).

(** The default of [WEBHOOK_PATH], main.py line 20; [BOT_TOKEN] is [None]
    when the variable is not set. *)
Definition default_webhook_path (BOT_TOKEN : option string) : string :=
  "/webhook/" +:+
  (if Py.truthy_opt BOT_TOKEN then Py.slice_from (default EmptyString BOT_TOKEN) (-20)
   else "secret").

End Startup.

Module Webhook.

(** A request to the webhook: the header [X-Telegram-Bot-Api-Secret-Token]
    when it is there, and the body. *)
Record Request (Body : Type) := mkRequest {
  secret_header : option string;
  body : Body
}.
Arguments mkRequest {Body} _ _.
Arguments secret_header {Body} _.
Arguments body {Body} _.

(** What the endpoint answers: the dictionary with [ok], the
    [HTTPException] with status 403, or the exception of
    [request.json()] or of [de_json]. *)
Inductive Response := Accepted | Forbidden | BadBody.

Section Endpoint.

(** The body of a request, what [request.json()] gives, and what is put
    on the queue. *)
Variable Body Json Item : Type.
(** [request.json()], [None] where it raises. *)
Variable request_json : Body -> option Json.
(** [Update.de_json(body, telegram_app.bot)], [None] where it raises. *)
Variable de_json : Json -> option Item.
Variable SECRET_TOKEN : string.

(** [header_val != SECRET_TOKEN], main.py line 264. *)
Definition header_differs (header_val : option string) : bool :=
  match header_val with
  | Some h => negb (String.eqb h SECRET_TOKEN)
  | None => true
  end.

(** What a body puts on the queue, when reading it raises nothing. *)
Definition read_update (b : Body) : option Item :=
  match request_json b with
  | Some parsed => de_json parsed
  | None => None
  end.

(** [telegram_webhook], main.py lines 260-270, on the update queue. *)
Definition telegram_webhook (queue : list Item) (request : Request Body)
    : list Item * Response :=
  if Py.truthy SECRET_TOKEN && header_differs (secret_header request) then
    (queue, Forbidden)
  else
    match request_json (body request) with
    | None => (queue, BadBody)
    | Some parsed =>
        match de_json parsed with
        | None => (queue, BadBody)
        | Some update => (queue ++ [update], Accepted)
        end
    end.

(** The requests served one after the other. *)
Definition serve (queue : list Item) (requests : list (Request Body))
    : list Item :=
  fold_left (fun q r => fst (telegram_webhook q r)) requests queue.

(** The requests the endpoint lets through: the secret matches, or none
    is configured. *)
Definition authorised (request : Request Body) : bool :=
  negb (Py.truthy SECRET_TOKEN)
  || match secret_header request with
     | Some h => String.eqb h SECRET_TOKEN
     | None => false
     end.

End Endpoint.

End Webhook.

(** ** Further notions for statements *)

(** The ranges lie one after the other from [last] on: none starts before
    the end of the one before it, none has a negative length. *)
Fixpoint laid_out (last : Z) (l : list MessageEntity.t) : Prop :=
  match l with
  | [] => True
  | ent :: l' =>
      last <= MessageEntity.offset ent
      /\ 0 <= MessageEntity.length ent
      /\ laid_out (MessageEntity.offset ent + MessageEntity.length ent) l'
  end.

(** The range is a [text_link] with a target. *)
Definition has_target (ent : MessageEntity.t) : bool :=
  String.eqb (MessageEntity.type ent) "text_link"
  && Py.truthy_opt (MessageEntity.url ent).

(** The destinations of the client calls of a trace, in order. *)
Definition call_dests (trace : list Event) : list string :=
  flat_map (fun e => match e with EvCall c _ => [call_dest c] | _ => [] end) trace.

(** The insertions of the key [(chat, mid)] in a trace. *)
Definition marks_of (key : string * Z) (trace : list Event) : list Event :=
  List.filter
    (fun e => match e with
              | EvMark chat mid => bool_decide ((chat, mid) = key)
              | _ => false
              end)
    trace.

(** The post goes down the sticker branch of the delivery. *)
Definition sticker_branch (msg : Message.t) : bool :=
  match Message.photo msg, Message.document msg, Message.video msg,
        Message.audio msg, Message.voice msg, Message.sticker msg with
  | [], None, None, None, None, Some _ => true
  | _, _, _, _, _, _ => false
  end.

(** The characters of an output of [quote_plus]. *)
Definition query_safe (c : ascii) : bool :=
  Quote.always_safe c || Ascii.eqb c "%" || Ascii.eqb c "+".

(** The key under which a post is recorded. *)
Definition key_of (msg : Message.t) : string * Z :=
  (Py.str (Message.chat_id msg), Message.message_id msg).

(** The caption and the markup the handler builds for a post, main.py
    lines 169-198. *)
Definition caption_of (urlparse : string -> option string)
    (format : string -> list (string * string) -> option string)
    (cfg : Config) (msg : Message.t) : string :=
  build_caption format cfg
    (replace_entities_in_text urlparse cfg
       (fst (resolve_text msg)) (snd (resolve_text msg)))
    (Py.str (Message.chat_id msg)) (Message.message_id msg).

Definition markup_of (urlparse : string -> option string) (cfg : Config)
    (msg : Message.t) : option InlineKeyboardMarkup.t :=
  final_markup urlparse cfg (Message.reply_markup msg)
    (extract_terabox_links_from_entities urlparse
       (fst (resolve_text msg)) (snd (resolve_text msg))).

(** The url of a button, for reading a row. *)
Definition button_urls (row : list InlineKeyboardButton.t) : list (option string) :=
  map InlineKeyboardButton.url row.

(** Inputs of the further properties. *)
Module Cases.

Definition bold_range : MessageEntity.t := MessageEntity.mk "bold" 0 5 None.

Definition late_url_range : MessageEntity.t := MessageEntity.mk "url" 11 28 None.

Definition other_post : Message.t :=
  Message.mk 42 9 (Some "plain words"%string) None [] [] None
             [] None None None None None.

Definition photo_post : Message.t :=
  Message.mk 42 10 None (Some "a photo"%string) [] [] None
             ["small"; "large"]%string None None None None None.

Definition never_raises (n : nat) (c : BotCall) : nat * bool := (S n, true).

Definition secret_request (h : option string) (n : nat) : Webhook.Request nat :=
  Webhook.mkRequest h n.

Definition untracked_text : string := "Hello https://example.com/abc ok".

Definition untracked_url_range : MessageEntity.t := MessageEntity.mk "url" 6 23 None.

Definition greeting_range : MessageEntity.t := MessageEntity.mk "bold" 0 5 None.

(** Bodies are numbers; one that is not zero reads as the update of the
    post with that message id, zero is a body that cannot be read. *)
Definition update_of_nat (n : nat) : option Update.t :=
  match n with
  | O => None
  | S _ =>
      Some (Update.mk (Some (Message.mk 42 (Z.of_nat n) None None [] [] None
                                        [] None None None None None)))
  end.

End Cases.

(** ** Strings *)

Lemma append_nil_r (s : string) : s +:+ EmptyString = s.
Proof. induction s as [|c s IH]; simpl; [done | by f_equal]. Qed.

Lemma append_assoc (a b c : string) : (a +:+ b) +:+ c = a +:+ b +:+ c.
Proof. induction a as [|x a IH]; simpl; [done | by f_equal]. Qed.

Lemma prefix_spec (p s : string) :
  String.prefix p s = true <-> exists t, s = p +:+ t.
Proof.
  revert s. induction p as [|c p IH]; intros s.
  - destruct s; simpl; (split; [intros _; eauto | done]).
  - destruct s as [|d s]; simpl.
    + split; [done | intros [t Ht]; discriminate].
    + destruct (Ascii.ascii_dec c d) as [->|Hne].
      * rewrite IH. split; intros [t Ht]; exists t; congruence.
      * split; [done | intros [t Ht]; congruence].
Qed.

Lemma str_in_spec (needle hay : string) :
  Py.str_in needle hay = true <-> exists pre post, hay = pre +:+ needle +:+ post.
Proof.
  induction hay as [|c hay IH].
  - change (Py.str_in needle EmptyString) with (String.prefix needle EmptyString || false).
    rewrite orb_false_r, prefix_spec. split.
    + intros [t Ht]. by exists EmptyString, t.
    + intros [pre [post H]]. destruct pre; [by exists post | discriminate].
  - change (Py.str_in needle (String c hay))
      with (String.prefix needle (String c hay) || Py.str_in needle hay).
    rewrite orb_true_iff, prefix_spec, IH. split.
    + intros [[t Ht] | [pre [post H]]].
      * by exists EmptyString, t.
      * exists (String c pre), post. simpl. by rewrite H.
    + intros [pre [post H]]. destruct pre as [|d pre]; simpl in H.
      * left. by exists post.
      * right. exists pre, post. congruence.
Qed.

Lemma lower_app (a b : string) : Py.lower (a +:+ b) = Py.lower a +:+ Py.lower b.
Proof. induction a as [|c a IH]; simpl; [done | by f_equal]. Qed.

Lemma lower_split (s a b : string) :
  Py.lower s = a +:+ b ->
  exists a' b', s = a' +:+ b' /\ Py.lower a' = a /\ Py.lower b' = b.
Proof.
  revert s. induction a as [|c a IH]; intros s H; simpl in H.
  - by exists EmptyString, s.
  - destruct s as [|d s]; simpl in H; [discriminate |].
    injection H as Hc Hs. destruct (IH _ Hs) as (a' & b' & -> & Ha & Hb).
    exists (String d a'), b'. simpl. by rewrite Hc, Ha.
Qed.

(** A search in the lower-cased text finds the occurrences up to case. *)
Lemma str_in_lower (marker s : string) :
  Py.lower marker = marker ->
  Py.str_in marker (Py.lower s) = true <-> occurs_ci marker s.
Proof.
  intros Hm. rewrite str_in_spec. unfold occurs_ci. split.
  - intros (pre & post & H).
    destruct (lower_split _ _ _ H) as (pre' & r & -> & _ & Hr).
    destruct (lower_split _ _ _ Hr) as (mid & post' & -> & Hmid & _).
    exists pre', mid, post'. by rewrite Hm.
  - intros (pre & mid & post & -> & Hmid).
    exists (Py.lower pre), (Py.lower post).
    by rewrite !lower_app, Hmid, Hm.
Qed.

Lemma rstrip_spec (s : string) :
  stripped_of_slashes s (Py.rstrip "/" s).
Proof.
  unfold stripped_of_slashes.
  induction s as [|a s [[n Hn] Hend]]; simpl.
  - split; [by exists O | intros [|x t]; discriminate].
  - destruct (Py.rstrip "/" s) as [|b r] eqn:Hr.
    + destruct (Ascii.eqb_spec a "/") as [->|Hne].
      * split; [| intros [|x t]; discriminate].
        exists (S n). simpl in *. by f_equal.
      * split.
        -- exists n. simpl in *. by f_equal.
        -- intros [|x t] H; simpl in H; [congruence |].
           injection H as _ H. destruct t; discriminate.
    + split.
      * exists n. simpl in *. by f_equal.
      * intros [|x t] H; simpl in H; [discriminate |].
        injection H as _ H. by apply (Hend t).
Qed.

(** [quote_plus] loses nothing: [unquote_plus] reads the URL back. *)
Lemma pct_decode_quote_char (c : ascii) (rest : string) :
  Quote.pct_decode (Quote.quote_char c +:+ rest)
  = Quote.utf8 c ++ Quote.pct_decode rest.
Proof. destruct c as [[] [] [] [] [] [] [] []]; reflexivity. Qed.

Lemma utf8_decode_utf8 (c : ascii) (bs : list nat) :
  Quote.utf8_decode (Quote.utf8 c ++ bs) = String c (Quote.utf8_decode bs).
Proof. destruct c as [[] [] [] [] [] [] [] []]; reflexivity. Qed.

Lemma unquote_quote_plus (u : string) : Quote.unquote_plus (Quote.quote_plus u) = u.
Proof.
  unfold Quote.unquote_plus. induction u as [|c u IH]; [done |].
  change (Quote.quote_plus (String c u))
    with (Quote.quote_char c +:+ Quote.quote_plus u).
  by rewrite pct_decode_quote_char, utf8_decode_utf8, IH.
Qed.

(** A slice with bounds that are not negative is the substring of the
    half-open interval. *)
Lemma substring_min (n m : nat) (s : string) :
  String.substring n m s = String.substring n (Nat.min m (String.length s - n)) s.
Proof.
  revert n m. induction s as [|c s IH]; intros [|n] [|m]; simpl; try done.
  f_equal. rewrite (IH O m). by rewrite Nat.sub_0_r.
Qed.

Lemma substring_none (n : nat) (s : string) : String.substring n 0 s = EmptyString.
Proof. revert n. induction s as [|c s IH]; intros [|n]; simpl; done. Qed.

Lemma substring_beyond (n m : nat) (s : string) :
  (String.length s <= n)%nat -> String.substring n m s = EmptyString.
Proof.
  intros H. rewrite substring_min.
  replace (String.length s - n)%nat with O by lia.
  rewrite Nat.min_0_r. apply substring_none.
Qed.

Lemma slice_substring (text : string) (s n : Z) :
  0 <= s -> 0 <= n ->
  Py.slice text s (s + n) = String.substring (Z.to_nat s) (Z.to_nat n) text.
Proof.
  intros Hs Hn. unfold Py.slice, Py.clamp, Py.len.
  destruct (Z.ltb_spec s 0) as [? | _]; [lia |].
  destruct (Z.ltb_spec (s + n) 0) as [? | _]; [lia |].
  destruct (Z.ltb_spec (Z.min s (Z.of_nat (String.length text)))
                       (Z.min (s + n) (Z.of_nat (String.length text)))) as [Hlt | Hge].
  - rewrite (substring_min (Z.to_nat s) (Z.to_nat n)).
    f_equal; lia.
  - destruct (decide (n = 0)) as [-> | Hn0]; [by rewrite substring_none |].
    symmetry. apply substring_beyond. lia.
Qed.

Lemma truthy_true (s : string) : Py.truthy s = true <-> s <> EmptyString.
Proof. destruct s; simpl; split; congruence. Qed.

Lemma truthy_false (s : string) : Py.truthy s = false <-> s = EmptyString.
Proof. destruct s; simpl; split; congruence. Qed.

Lemma or_else_decide (s d : string) :
  Py.or_else s d = if decide (s = EmptyString) then d else s.
Proof. by destruct s. Qed.

Lemma lower_marker : Py.lower TERABOX_RE_FRAGMENT = TERABOX_RE_FRAGMENT.
Proof. reflexivity. Qed.

(** ** Loops that append *)

Lemma fold_left_snoc_map {A B : Type} (f : A -> B) (l : list A) (acc : list B) :
  fold_left (fun acc x => acc ++ [f x]) l acc = acc ++ map f l.
Proof.
  revert acc. induction l as [|x l IH]; intros acc; simpl.
  - by rewrite app_nil_r.
  - by rewrite IH, <- app_assoc.
Qed.

Lemma fold_left_snoc_flat {A B : Type} (step : list B -> A -> list B)
    (g : A -> list B) (l : list A) (acc : list B) :
  (forall acc x, step acc x = acc ++ g x) ->
  fold_left step l acc = acc ++ flat_map g l.
Proof.
  intros Hstep. revert acc. induction l as [|x l IH]; intros acc; simpl.
  - by rewrite app_nil_r.
  - by rewrite IH, Hstep, <- app_assoc.
Qed.

Lemma filter_filter_comm {A : Type} (p q : A -> bool) (l : list A) :
  List.filter p (List.filter q l) = List.filter (fun x => q x && p x) l.
Proof.
  induction l as [|x l IH]; simpl; [done |].
  destruct (q x); simpl; [destruct (p x) |]; by rewrite ?IH.
Qed.

Lemma filter_ext_in' {A : Type} (p q : A -> bool) (l : list A) :
  (forall x, In x l -> p x = q x) -> List.filter p l = List.filter q l.
Proof.
  induction l as [|x l IH]; intros H; simpl; [done |].
  rewrite (H x) by (by left). rewrite IH; [done |].
  intros y Hy. apply H. by right.
Qed.

(** ** The distinct elements of a list *)

Lemma distinct_In (l : list string) (x : string) : In x (distinct l) <-> In x l.
Proof.
  induction l as [|y l IH]; simpl; [done |].
  rewrite filter_In, IH, negb_true_iff, String.eqb_neq.
  destruct (decide (y = x)) as [->|Hne]; [tauto |].
  split; [tauto |]. intros [H | H]; [done |]. right. split; [done | congruence].
Qed.

Lemma distinct_NoDup (l : list string) : NoDup (distinct l).
Proof.
  induction l as [|y l IH]; simpl; [constructor |].
  constructor.
  - rewrite list_elem_of_In, filter_In, negb_true_iff, String.eqb_neq. tauto.
  - by apply NoDup_ListNoDup, List.NoDup_filter, NoDup_ListNoDup.
Qed.

(** ** Properties of the functions of main.py *)

Section Properties.

Local Set Default Proof Using "Type".

Variable urlparse : string -> option string.
Variable format : string -> list (string * string) -> option string.
Variable cfg : Config.
Variable Bot : Type.
Variable bot_call : Bot -> BotCall -> Bot * bool.

(** C6, amended.  [is_terabox_url(url)] is true if and only if [urlparse]
    accepts the URL and the marker [terabox] occurs, up to case, in the
    netloc it gives or anywhere in the URL.  The function is total: a
    URL that [urlparse] rejects is not tracked, whatever it contains. *)
Theorem is_terabox_url_iff (url : string) :
  is_terabox_url urlparse url = true <->
  exists netloc,
    urlparse url = Some netloc
    /\ (occurs_ci TERABOX_RE_FRAGMENT netloc
        \/ occurs_ci TERABOX_RE_FRAGMENT url).
Proof.
  unfold is_terabox_url. destruct (urlparse url) as [netloc|].
  - rewrite orb_true_iff.
    replace (Py.or_else netloc EmptyString) with netloc by (by destruct netloc).
    rewrite !(str_in_lower _ _ lower_marker). split.
    + intros H. by exists netloc.
    + intros (n & Hn & H). by injection Hn as <-.
  - split; [done | intros (n & Hn & _); done].
Qed.

(** C7.  Without a redirect base [build_redirect(u)] is [u]; with one
    it is the base without its trailing slashes, then [/?u=], then [u]
    percent-encoded by [quote_plus], from which [u] can be read back. *)
Theorem build_redirect_spec (u : string) :
  (REDIRECT_BASE cfg = EmptyString -> build_redirect cfg u = u)
  /\ (REDIRECT_BASE cfg <> EmptyString ->
      exists stem,
        stripped_of_slashes (REDIRECT_BASE cfg) stem
        /\ build_redirect cfg u = stem +:+ "/?u=" +:+ Quote.quote_plus u)
  /\ Quote.unquote_plus (Quote.quote_plus u) = u.
Proof.
  unfold build_redirect. split; [| split].
  - intros H. by rewrite H.
  - intros H. apply truthy_true in H. rewrite H. simpl.
    exists (Py.rstrip "/" (REDIRECT_BASE cfg)). split; [apply rstrip_spec | done].
  - apply unquote_quote_plus.
Qed.

Lemma extract_step_candidates (text : string) (links : list string)
    (ent : MessageEntity.t) :
  extract_step urlparse text links ent =
  links ++ List.filter (is_terabox_url urlparse) (candidate_urls text ent).
Proof.
  unfold extract_step, candidate_urls.
  destruct (String.eqb (MessageEntity.type ent) "url"); simpl.
  { destruct (is_terabox_url urlparse _); by rewrite ?app_nil_r. }
  destruct (String.eqb (MessageEntity.type ent) "text_link"); simpl;
    [| by rewrite app_nil_r].
  destruct (MessageEntity.url ent) as [u|]; simpl; [| by rewrite app_nil_r].
  destruct (Py.truthy u); simpl; [| by rewrite app_nil_r].
  destruct (is_terabox_url urlparse u); by rewrite ?app_nil_r.
Qed.

(** C8.  The extractor returns the candidate URLs of the ranges that
    [is_terabox_url] accepts, in the order of the ranges as given and
    with repetitions kept.  The candidate of a [url] range is the
    substring of the text at [offset, offset + length), that of a
    [text_link] range is its target.  The extractor reads no
    configuration: the redirect base is not among its arguments. *)
Theorem extract_spec (text : string) (entities : option (list MessageEntity.t)) :
  extract_terabox_links_from_entities urlparse text entities =
  List.filter (is_terabox_url urlparse)
              (flat_map (candidate_urls text) (default [] entities))
  /\ (forall ent,
        MessageEntity.type ent = "url"%string ->
        0 <= MessageEntity.offset ent -> 0 <= MessageEntity.length ent ->
        candidate_urls text ent =
        [String.substring (Z.to_nat (MessageEntity.offset ent))
                          (Z.to_nat (MessageEntity.length ent)) text])
  /\ (forall ent u,
        MessageEntity.type ent = "text_link"%string ->
        MessageEntity.url ent = Some u -> u <> EmptyString ->
        candidate_urls text ent = [u]).
Proof.
  split; [| split].
  - destruct entities as [[|ent ents]|]; [done | | done].
    unfold extract_terabox_links_from_entities, default.
    generalize (ent :: ents) as l. intros l.
    rewrite (fold_left_snoc_flat _
               (fun e => List.filter (is_terabox_url urlparse) (candidate_urls text e)))
      by apply extract_step_candidates.
    rewrite app_nil_l.
    induction l as [|x l IH]; simpl; [done |].
    by rewrite List.filter_app, IH.
  - intros ent Hty Hoff Hlen. unfold candidate_urls. rewrite Hty. simpl.
    by rewrite slice_substring.
  - intros ent u Hty Hurl Hu. unfold candidate_urls. rewrite Hty, Hurl. simpl.
    apply truthy_true in Hu. by rewrite Hu.
Qed.

Lemma convert_button_converted (btn : InlineKeyboardButton.t) :
  converted urlparse cfg btn (convert_button urlparse cfg btn).
Proof.
  unfold convert_button, redirect_if_terabox. rewrite !or_else_decide.
  destruct (InlineKeyboardButton.url btn) as [u|] eqn:Hu; simpl.
  - destruct (Py.truthy u) eqn:Ht.
    + apply converted_url; [done | by apply truthy_true].
    + apply truthy_false in Ht. subst u.
      destruct (InlineKeyboardButton.callback_data btn) as [d|] eqn:Hd; simpl.
      * destruct (Py.truthy d) eqn:Htd.
        -- apply converted_action; [| done | by apply truthy_true].
           intros (u & Hu' & Hne). congruence.
        -- apply truthy_false in Htd. subst d. apply converted_neither.
           ++ intros (u & Hu' & Hne). congruence.
           ++ intros (d & Hd' & Hne). congruence.
      * apply converted_neither.
        -- intros (u & Hu' & Hne). congruence.
        -- intros (d & Hd' & Hne). congruence.
  - destruct (InlineKeyboardButton.callback_data btn) as [d|] eqn:Hd; simpl.
    + destruct (Py.truthy d) eqn:Htd.
      * apply converted_action; [| done | by apply truthy_true].
        intros (u & Hu' & Hne). congruence.
      * apply truthy_false in Htd. subst d. apply converted_neither.
        -- intros (u & Hu' & Hne). congruence.
        -- intros (d & Hd' & Hne). congruence.
    + apply converted_neither.
      * intros (u & Hu' & Hne). congruence.
      * intros (d & Hd' & Hne). congruence.
Qed.

Lemma convert_inline_markup_rows (m : InlineKeyboardMarkup.t) :
  convert_inline_markup urlparse cfg (Some m) =
  Some (InlineKeyboardMarkup.mk
          (map (map (convert_button urlparse cfg))
               (InlineKeyboardMarkup.inline_keyboard m))).
Proof.
  unfold convert_inline_markup. do 2 f_equal.
  rewrite (fold_left_snoc_map (convert_row urlparse cfg)). simpl.
  apply map_ext. intros row. unfold convert_row.
  by rewrite fold_left_snoc_map.
Qed.

(** C5.  The converted grid of a grid that is not null has the rows of
    the original, each with as many buttons and in the same order, and
    each button is the conversion of the button at its place: a button
    with a url keeps its label ([link] for an empty one) and has the
    url classified and redirected, a button with an action and no url
    keeps the action and its label ([btn] for an empty one). *)
Theorem convert_inline_markup_spec (m : InlineKeyboardMarkup.t) :
  exists m',
    convert_inline_markup urlparse cfg (Some m) = Some m'
    /\ map (@List.length _) (InlineKeyboardMarkup.inline_keyboard m')
       = map (@List.length _) (InlineKeyboardMarkup.inline_keyboard m)
    /\ Forall2 (Forall2 (converted urlparse cfg))
               (InlineKeyboardMarkup.inline_keyboard m)
               (InlineKeyboardMarkup.inline_keyboard m').
Proof.
  eexists. split; [apply convert_inline_markup_rows |]. simpl. split.
  - rewrite map_map. apply map_ext. intros row. apply length_map.
  - induction (InlineKeyboardMarkup.inline_keyboard m) as [|row rows IH];
      simpl; constructor; [| done].
    clear IH. induction row as [|b row IH]; simpl; constructor; [| done].
    apply convert_button_converted.
Qed.

Lemma tb_loop (l : list string) (seen : gset string)
    (acc : list InlineKeyboardButton.t) :
  snd (fold_left (tb_step cfg) l (seen, acc)) =
  acc ++ map (open_button cfg)
             (List.filter (fun y => negb (bool_decide (y ∈ seen))) (distinct l)).
Proof.
  revert seen acc. induction l as [|x l IH]; intros seen acc; simpl.
  - by rewrite app_nil_r.
  - destruct (bool_decide (x ∈ seen)) eqn:Hx; simpl.
    + rewrite IH. do 2 f_equal. rewrite filter_filter_comm.
      apply filter_ext_in'. intros y _.
      destruct (String.eqb_spec y x) as [->|Hne]; simpl; [by rewrite Hx | done].
    + rewrite IH, <- app_assoc. simpl. do 3 f_equal.
      rewrite filter_filter_comm. apply filter_ext_in'. intros y _.
      destruct (String.eqb_spec y x) as [->|Hne]; simpl.
      * rewrite bool_decide_true; [done |].
        by apply elem_of_union_l, elem_of_singleton.
      * apply f_equal. apply bool_decide_ext.
        rewrite elem_of_union, elem_of_singleton.
        split; [by intros [?|?] | by right].
Qed.

Lemma tb_buttons_distinct (links : list string) :
  tb_buttons_of cfg links = map (open_button cfg) (distinct links).
Proof.
  unfold tb_buttons_of. rewrite tb_loop. simpl. f_equal.
  induction (distinct links) as [|x l IH]; simpl; [done |].
  rewrite bool_decide_false by apply not_elem_of_empty. simpl. by f_equal.
Qed.

(** C9.  When links were extracted, the markup that is sent is the
    converted markup (no rows when the post had none) followed by one
    more row, which holds one button [Open (Terabox)] for each distinct
    link, in the order in which the links were first seen, with the
    redirect of the link as its url.  When no link was extracted the
    markup that is sent is the converted markup. *)
Theorem final_markup_spec (reply_markup : option InlineKeyboardMarkup.t)
    (terabox_links : list string) :
  let rows :=
    match convert_inline_markup urlparse cfg reply_markup with
    | Some kb => InlineKeyboardMarkup.inline_keyboard kb
    | None => []
    end in
  let tb_row :=
    map (fun l => InlineKeyboardButton.mk "Open (Terabox)"
                    (Some (build_redirect cfg l)) None)
        (distinct terabox_links) in
  (terabox_links <> [] ->
     final_markup urlparse cfg reply_markup terabox_links =
     Some (InlineKeyboardMarkup.mk (rows ++ [tb_row])))
  /\ (terabox_links = [] ->
     final_markup urlparse cfg reply_markup terabox_links =
     convert_inline_markup urlparse cfg reply_markup)
  /\ NoDup (distinct terabox_links)
  /\ (forall l, In l (distinct terabox_links) <-> In l terabox_links).
Proof.
  simpl. split; [| split; [| split]].
  - intros Hne. unfold final_markup.
    destruct terabox_links as [|l0 ls]; [done |].
    rewrite tb_buttons_distinct.
    destruct reply_markup as [m|]; [| done].
    by rewrite convert_inline_markup_rows.
  - intros ->. unfold final_markup. by destruct reply_markup.
  - apply distinct_NoDup.
  - apply distinct_In.
Qed.

Lemma join_app (a b : list string) : Py.join (a ++ b) = Py.join a +:+ Py.join b.
Proof.
  induction a as [|x a IH]; simpl; [done |].
  by rewrite IH, append_assoc.
Qed.

Lemma replace_fold_acc (text : string) (l : list MessageEntity.t)
    (pieces : list string) (last : Z) :
  fold_left (replace_step urlparse cfg text) l (pieces, last) =
  (pieces ++ fst (fold_left (replace_step urlparse cfg text) l ([], last)),
   snd (fold_left (replace_step urlparse cfg text) l ([], last))).
Proof.
  revert pieces last. induction l as [|x l IH]; intros pieces last; simpl.
  - by rewrite app_nil_r.
  - rewrite IH. rewrite (IH (_ :: _)). simpl. by rewrite <- !app_assoc.
Qed.

Lemma sorted_by_offset_nil (ents : list MessageEntity.t) :
  sorted_by_offset ents = [] -> ents = [].
Proof.
  destruct ents as [|x l]; [done |]. simpl.
  destruct (sorted_by_offset l); simpl; [done |]. by case_match.
Qed.

(** C3, amended.  For a [text_link] range with a target, the rewriter
    classifies the target and puts the target, redirected when it is
    tracked, into the output text in place of the text the range
    covers: the output is what the ranges before it produce, the gap up
    to the range, the target or its redirect, and what the ranges after
    it produce. *)
Theorem replace_text_link (text : string)
    (ents before after : list MessageEntity.t) (ent : MessageEntity.t)
    (u : string) :
  sorted_by_offset ents = before ++ ent :: after ->
  MessageEntity.type ent = "text_link"%string ->
  MessageEntity.url ent = Some u ->
  u <> EmptyString ->
  let s := MessageEntity.offset ent in
  let e := s + MessageEntity.length ent in
  let done_before := fold_left (replace_step urlparse cfg text) before ([], 0) in
  let done_after := fold_left (replace_step urlparse cfg text) after ([], e) in
  replace_entities_in_text urlparse cfg text (Some ents) =
  Py.join (fst done_before)
  +:+ Py.slice text (snd done_before) s
  +:+ (if is_terabox_url urlparse u then build_redirect cfg u else u)
  +:+ Py.join (fst done_after)
  +:+ Py.slice_from text (snd done_after).
Proof.
  intros Hsort Hty Hurl Hu. simpl.
  unfold replace_entities_in_text.
  destruct ents as [|x l].
  { simpl in Hsort. by destruct before. }
  rewrite Hsort, fold_left_app. simpl.
  destruct (fold_left (replace_step urlparse cfg text) before ([], 0))
    as [p1 last1] eqn:H1. simpl.
  rewrite replace_fold_acc.
  destruct (fold_left (replace_step urlparse cfg text) after
              ([], MessageEntity.offset ent + MessageEntity.length ent))
    as [p2 last2] eqn:H2. simpl.
  rewrite !join_app. simpl. rewrite append_nil_r.
  unfold entity_piece, redirect_if_terabox. rewrite Hty, Hurl. simpl.
  apply truthy_true in Hu. rewrite Hu.
  by rewrite !append_assoc, append_nil_r.
Qed.

Lemma or_else_empty (s : string) : Py.or_else s EmptyString = s.
Proof. by destruct s. Qed.

(** When [format] raises, the caption is the text, the separator of
    line 148 and the footer. *)
Lemma build_caption_fallback (original_text src_channel : string) (src_msg_id : Z) :
  format (CAPTION_TEMPLATE cfg)
    [ ("original_text", original_text); ("source_channel", src_channel);
      ("source_msg_id", Py.str src_msg_id); ("footer", FOOTER_TEXT cfg) ]%string = None ->
  build_caption format cfg original_text src_channel src_msg_id =
  original_text +:+ fallback_separator +:+ FOOTER_TEXT cfg.
Proof.
  intros H. unfold build_caption. rewrite !or_else_empty. by rewrite H.
Qed.

(** *** The delivery loop *)

Lemma deliver_all_acc (msg : Message.t) (cap : string)
    (kb : option InlineKeyboardMarkup.t) (dests : list string) (b : Bot)
    (tr : list Event) :
  fold_left
    (fun st dest =>
       let '(b0, tr) := st in
       let '(b1, tr1) := deliver Bot bot_call msg cap kb dest b0 in
       (b1, tr ++ tr1))
    dests (b, tr) =
  (fst (deliver_all Bot bot_call msg cap kb dests b),
   tr ++ snd (deliver_all Bot bot_call msg cap kb dests b)).
Proof.
  unfold deliver_all. revert b tr.
  induction dests as [|d ds IH]; intros b tr; simpl.
  - by rewrite app_nil_r.
  - destruct (deliver Bot bot_call msg cap kb d b) as [b1 tr1]. simpl.
    rewrite IH. rewrite (IH b1 tr1). simpl. by rewrite app_assoc.
Qed.

Lemma deliver_all_cons (msg : Message.t) (cap : string)
    (kb : option InlineKeyboardMarkup.t) (d : string) (ds : list string) (b : Bot) :
  deliver_all Bot bot_call msg cap kb (d :: ds) b =
  (fst (deliver_all Bot bot_call msg cap kb ds
          (fst (deliver Bot bot_call msg cap kb d b))),
   snd (deliver Bot bot_call msg cap kb d b)
   ++ snd (deliver_all Bot bot_call msg cap kb ds
             (fst (deliver Bot bot_call msg cap kb d b)))).
Proof.
  unfold deliver_all at 1. simpl.
  destruct (deliver Bot bot_call msg cap kb d b) as [b1 tr1]. simpl.
  apply deliver_all_acc.
Qed.

(** Every destination gets its attempt, whatever the earlier calls
    did: the trace of the loop is one block of calls for each
    destination, in the order of the list. *)
Lemma deliver_all_blocks (P : string -> list Event -> Prop)
    (msg : Message.t) (cap : string) (kb : option InlineKeyboardMarkup.t) :
  (forall dest b, P dest (snd (deliver Bot bot_call msg cap kb dest b))) ->
  forall dests b,
  exists blocks,
    snd (deliver_all Bot bot_call msg cap kb dests b) = concat blocks
    /\ Forall2 P dests blocks.
Proof.
  intros HP dests. induction dests as [|d ds IH]; intros b.
  - exists []. split; [done | constructor].
  - rewrite deliver_all_cons. simpl.
    destruct (IH (fst (deliver Bot bot_call msg cap kb d b))) as (blocks & -> & HF).
    exists (snd (deliver Bot bot_call msg cap kb d b) :: blocks).
    split; [done |]. constructor; [apply HP | done].
Qed.

Lemma call1_call_to (b : Bot) (c : BotCall) :
  snd (call1 Bot bot_call b c) <> []
  /\ Forall (call_to (call_dest c)) (snd (call1 Bot bot_call b c)).
Proof.
  unfold call1. destruct (bot_call b c) as [b' ok]. simpl.
  split; [done |]. repeat constructor. by exists c, ok.
Qed.

Lemma deliver_attempts (msg : Message.t) (cap : string)
    (kb : option InlineKeyboardMarkup.t) (dest : string) (b : Bot) :
  snd (deliver Bot bot_call msg cap kb dest b) <> []
  /\ Forall (call_to dest) (snd (deliver Bot bot_call msg cap kb dest b)).
Proof.
  unfold deliver.
  destruct (rev (Message.photo msg)); [| apply (call1_call_to b (send_photo dest _ _ _))].
  destruct (Message.document msg); [apply (call1_call_to b (send_document dest _ _ _)) |].
  destruct (Message.video msg); [apply (call1_call_to b (send_video dest _ _ _)) |].
  destruct (Message.audio msg); [apply (call1_call_to b (send_audio dest _ _ _)) |].
  destruct (Message.voice msg); [apply (call1_call_to b (send_voice dest _ _ _)) |].
  destruct (Message.sticker msg) as [f|].
  - destruct (bot_call b (send_sticker dest f)) as [b1 ok] eqn:H1.
    destruct (ok && Py.truthy cap).
    + unfold call1. destruct (bot_call b1 _) as [b2 ok2]. simpl.
      split; [done |].
      repeat constructor; [by exists (send_sticker dest f), ok
                          | by exists (send_message dest cap None), ok2].
    + simpl. split; [done |]. repeat constructor.
      by exists (send_sticker dest f), ok.
  - destruct (Py.truthy cap).
    + apply (call1_call_to b (send_message dest _ _)).
    + apply (call1_call_to b (forward_message dest _ _)).
Qed.

Lemma filter_is_mark_calls (tr : list Event) :
  Forall (fun e => exists c ok, e = EvCall c ok) tr ->
  List.filter is_mark tr = [] /\ List.filter is_call tr = tr.
Proof.
  induction 1 as [|e tr (c & ok & ->) _ [IH1 IH2]]; simpl; [done |].
  by rewrite IH2.
Qed.

Lemma client_run_app (b b1 b2 : Bot) (tr1 tr2 : list Event) :
  client_run bot_call b tr1 b1 ->
  client_run bot_call b1 tr2 b2 ->
  client_run bot_call b (tr1 ++ tr2) b2.
Proof.
  induction 1 as [b | b c tr b' _ IH | b chat mid found tr b' _ IH
                 | b chat mid tr b' _ IH]; intros H2; simpl;
    [done | constructor; by apply IH ..].
Qed.

Lemma call1_client_run (b : Bot) (c : BotCall) :
  client_run bot_call b (snd (call1 Bot bot_call b c)) (fst (call1 Bot bot_call b c)).
Proof.
  unfold call1.
  pose proof (client_run_call bot_call b c [] _ (client_run_nil bot_call _)) as H.
  destruct (bot_call b c) as [b' ok]. exact H.
Qed.

(** The block of one destination is a run of the client. *)
Lemma deliver_client_run (msg : Message.t) (cap : string)
    (kb : option InlineKeyboardMarkup.t) (dest : string) (b : Bot) :
  client_run bot_call b
    (snd (deliver Bot bot_call msg cap kb dest b))
    (fst (deliver Bot bot_call msg cap kb dest b)).
Proof.
  unfold deliver.
  destruct (rev (Message.photo msg)); [| apply call1_client_run].
  destruct (Message.document msg); [apply call1_client_run |].
  destruct (Message.video msg); [apply call1_client_run |].
  destruct (Message.audio msg); [apply call1_client_run |].
  destruct (Message.voice msg); [apply call1_client_run |].
  destruct (Message.sticker msg) as [f|].
  - pose proof (client_run_call bot_call b (send_sticker dest f)) as Hfirst.
    destruct (bot_call b (send_sticker dest f)) as [b1 ok] eqn:H1. simpl in Hfirst.
    destruct (ok && Py.truthy cap).
    + pose proof (call1_client_run b1 (send_message dest cap None)) as Hsecond.
      destruct (call1 Bot bot_call b1 (send_message dest cap None)) as [b2 tr].
      simpl in *. by apply Hfirst.
    + simpl. apply Hfirst. constructor.
  - destruct (Py.truthy cap); apply call1_client_run.
Qed.

Lemma deliver_all_client_run (msg : Message.t) (cap : string)
    (kb : option InlineKeyboardMarkup.t) (dests : list string) (b : Bot) :
  client_run bot_call b
    (snd (deliver_all Bot bot_call msg cap kb dests b))
    (fst (deliver_all Bot bot_call msg cap kb dests b)).
Proof.
  revert b. induction dests as [|d ds IH]; intros b; [constructor |].
  rewrite deliver_all_cons. simpl.
  eapply client_run_app; [apply deliver_client_run | apply IH].
Qed.

(** On a client whose calls all raise, the block of a destination is its
    one call, recorded as raised. *)
Lemma deliver_all_raise (msg : Message.t) (cap : string)
    (kb : option InlineKeyboardMarkup.t) (dest : string) (b : Bot) :
  (forall b0 c, snd (bot_call b0 c) = false) ->
  exists c,
    snd (deliver Bot bot_call msg cap kb dest b) = [EvCall c false]
    /\ call_dest c = dest.
Proof.
  intros Hraise.
  assert (Hone : forall c, snd (call1 Bot bot_call b c) = [EvCall c false]).
  { intros c. unfold call1. pose proof (Hraise b c) as H.
    destruct (bot_call b c) as [b' ok]. simpl in *. by subst ok. }
  unfold deliver.
  destruct (rev (Message.photo msg)); [| rewrite Hone; eauto].
  destruct (Message.document msg); [rewrite Hone; eauto |].
  destruct (Message.video msg); [rewrite Hone; eauto |].
  destruct (Message.audio msg); [rewrite Hone; eauto |].
  destruct (Message.voice msg); [rewrite Hone; eauto |].
  destruct (Message.sticker msg) as [f|].
  - pose proof (Hraise b (send_sticker dest f)) as H.
    destruct (bot_call b (send_sticker dest f)) as [b1 ok]. simpl in *. subst ok.
    simpl. eauto.
  - destruct (Py.truthy cap); rewrite Hone; eauto.
Qed.

(** C2.  A post that passes the source filter and the duplicate check
    is handled as follows, whatever the client calls do: the table is
    queried, then each destination of [DEST_LIST] gets its block of
    calls (one call at least), in the order of the list, and then the
    key of the post is inserted into the table, once, as the last
    effect.  The calls of the trace are the calls put to the client, one
    after the other from the state the client was in, each recorded with
    the answer the client gave, and the client is left in the state
    after the last of them.  A call that raises changes neither the
    blocks that follow nor the insertion: on a client whose calls all
    raise, each destination still gets its call, recorded as raised, and
    the key is inserted all the same. *)
Theorem handle_commits_after_all_destinations (w : World Bot) (update : Update.t)
    (msg : Message.t) :
  Update.channel_post update = Some msg ->
  ignored_source cfg (Message.chat_id msg) = false ->
  already_forwarded (db w) (Message.chat_id msg) (Message.message_id msg) = false ->
  let chat := Py.str (Message.chat_id msg) in
  let mid := Message.message_id msg in
  let w' := fst (handle_channel_post urlparse format cfg Bot bot_call w update) in
  let trace := snd (handle_channel_post urlparse format cfg Bot bot_call w update) in
  exists blocks,
    trace = EvExists chat mid false :: concat blocks ++ [EvMark chat mid]
    /\ Forall2 (fun dest block => block <> [] /\ Forall (call_to dest) block)
               (DEST_LIST cfg) blocks
    /\ List.filter is_mark trace = [EvMark chat mid]
    /\ db w' = {[ (chat, mid) ]} ∪ db w
    /\ client_run bot_call (bot w) trace (bot w')
    /\ ((forall b c, snd (bot_call b c) = false) ->
        Forall2 (fun dest block =>
                   exists c, block = [EvCall c false] /\ call_dest c = dest)
                (DEST_LIST cfg) blocks).
Proof.
  intros Hpost Hsrc Hdup. simpl.
  unfold handle_channel_post. rewrite Hpost, Hsrc, Hdup.
  destruct (resolve_text msg) as [original_text entities].
  set (cap := build_caption _ _ _ _ _).
  set (kb := final_markup _ _ _ _).
  destruct (deliver_all_blocks
              (fun dest block =>
                 (block <> [] /\ Forall (call_to dest) block)
                 /\ ((forall b c, snd (bot_call b c) = false) ->
                     exists c, block = [EvCall c false] /\ call_dest c = dest))
              msg cap kb) with (dests := DEST_LIST cfg) (b := bot w)
    as (blocks & Hblocks & HF).
  { intros dest b. split; [apply deliver_attempts |].
    intros Hraise. by apply deliver_all_raise. }
  pose proof (deliver_all_client_run msg cap kb (DEST_LIST cfg) (bot w)) as Hrun.
  destruct (deliver_all Bot bot_call msg cap kb (DEST_LIST cfg) (bot w))
    as [b' calls]. simpl in *. subst calls.
  exists blocks. split; [done |].
  split; [eapply Forall2_impl; [exact HF |]; by intros d blk [H _] |].
  split; [| split; [done |]; split].
  - rewrite List.filter_app. simpl.
    assert (Hcalls : Forall (fun e => exists c ok, e = EvCall c ok) (concat blocks)).
    { apply Forall_concat. clear -HF.
      induction HF as [|d blk ds blks [[_ Hb] _] _ IH]; constructor; [| done].
      eapply Forall_impl; [exact Hb |]. intros e (c & ok & -> & _). eauto. }
    by rewrite (proj1 (filter_is_mark_calls _ Hcalls)).
  - constructor. eapply client_run_app; [exact Hrun |]. repeat constructor.
  - intros Hraise. eapply Forall2_impl; [exact HF |].
    intros d blk [_ H]. by apply H.
Qed.

(** *** The dedupe table only grows *)

Lemma handle_keeps_keys (w : World Bot) (update : Update.t) (k : string * Z) :
  k ∈ db w ->
  k ∈ db (fst (handle_channel_post urlparse format cfg Bot bot_call w update)).
Proof.
  intros Hk. unfold handle_channel_post.
  destruct (Update.channel_post update) as [msg|]; [| done].
  destruct (ignored_source cfg _); [done |].
  destruct (already_forwarded _ _ _); [done |].
  destruct (resolve_text msg) as [t e].
  destruct (deliver_all _ _ _ _ _ _ _) as [b' calls]. simpl.
  unfold mark_forwarded. by apply elem_of_union_r.
Qed.

Lemma handle_all_acc (updates : list Update.t) (w : World Bot) (tr : list Event) :
  fold_left
    (fun st u =>
       let '(w0, tr) := st in
       let '(w1, tr1) := handle_channel_post urlparse format cfg Bot bot_call w0 u in
       (w1, tr ++ tr1))
    updates (w, tr) =
  (fst (handle_all urlparse format cfg Bot bot_call w updates),
   tr ++ snd (handle_all urlparse format cfg Bot bot_call w updates)).
Proof.
  unfold handle_all. revert w tr.
  induction updates as [|u us IH]; intros w tr; simpl.
  - by rewrite app_nil_r.
  - destruct (handle_channel_post urlparse format cfg Bot bot_call w u) as [w1 tr1].
    simpl. rewrite IH. rewrite (IH w1 tr1). simpl. by rewrite app_assoc.
Qed.

Lemma handle_all_keeps_keys (updates : list Update.t) (w : World Bot)
    (k : string * Z) :
  k ∈ db w ->
  k ∈ db (fst (handle_all urlparse format cfg Bot bot_call w updates)).
Proof.
  revert w. induction updates as [|u us IH]; intros w Hk; [done |].
  unfold handle_all. simpl.
  pose proof (handle_keeps_keys w u k Hk) as H1.
  destruct (handle_channel_post urlparse format cfg Bot bot_call w u) as [w1 tr1].
  rewrite handle_all_acc. simpl. by apply IH.
Qed.

Lemma handle_records_key (w : World Bot) (update : Update.t) (msg : Message.t) :
  Update.channel_post update = Some msg ->
  ignored_source cfg (Message.chat_id msg) = false ->
  (Py.str (Message.chat_id msg), Message.message_id msg)
    ∈ db (fst (handle_channel_post urlparse format cfg Bot bot_call w update)).
Proof.
  intros Hpost Hsrc. unfold handle_channel_post. rewrite Hpost, Hsrc.
  destruct (already_forwarded _ _ _) eqn:Hdup.
  - simpl. by apply bool_decide_eq_true in Hdup.
  - destruct (resolve_text msg) as [t e].
    destruct (deliver_all _ _ _ _ _ _ _) as [b' calls]. simpl.
    unfold mark_forwarded. by apply elem_of_union_l, elem_of_singleton.
Qed.

(** C1.  Let two posts with the same chat id and message id be handled
    one after the other, with any number of other posts handled in
    between.  The second run leaves the table and the client as it
    found them and makes no client call and no insertion: either the
    source filter ignores the post, and then the run has no effect at
    all, or the run queries the table, is answered that the key is
    there, and stops.  So at most the first of the two runs
    delivers. *)
Theorem second_attempt_delivers_nothing (w : World Bot)
    (first second : Update.t) (m1 m2 : Message.t) (between : list Update.t) :
  Update.channel_post first = Some m1 ->
  Update.channel_post second = Some m2 ->
  Message.chat_id m1 = Message.chat_id m2 ->
  Message.message_id m1 = Message.message_id m2 ->
  let handle := handle_channel_post urlparse format cfg Bot bot_call in
  let w1 := fst (handle w first) in
  let w2 := fst (handle_all urlparse format cfg Bot bot_call w1 between) in
  let chat := Py.str (Message.chat_id m2) in
  let mid := Message.message_id m2 in
  fst (handle w2 second) = w2
  /\ List.filter is_call (snd (handle w2 second)) = []
  /\ List.filter is_mark (snd (handle w2 second)) = []
  /\ (if ignored_source cfg (Message.chat_id m2)
      then snd (handle w2 second) = []
      else already_forwarded (db w2) (Message.chat_id m2) mid = true
           /\ snd (handle w2 second) = [EvExists chat mid true]).
Proof.
  intros H1 H2 Hchat Hmid. simpl.
  set (w1 := fst (handle_channel_post urlparse format cfg Bot bot_call w first)).
  set (w2 := fst (handle_all urlparse format cfg Bot bot_call w1 between)).
  unfold handle_channel_post at 1 2 3 4 5. rewrite H2.
  destruct (ignored_source cfg (Message.chat_id m2)) eqn:Hsrc; [done |].
  assert (Hin : (Py.str (Message.chat_id m2), Message.message_id m2) ∈ db w2).
  { apply handle_all_keeps_keys. rewrite <- Hchat, <- Hmid.
    apply handle_records_key; [done | by rewrite Hchat]. }
  assert (Hdup : already_forwarded (db w2) (Message.chat_id m2)
                   (Message.message_id m2) = true).
  { by apply bool_decide_eq_true. }
  by rewrite Hdup.
Qed.

(** C10.  For a sticker post (a sticker and no photo, document, video,
    audio or voice) every client call of the handler is made without
    markup: the calls are [send_sticker] with the file of the sticker
    and [send_message] with a text and no [reply_markup], so the
    markup built for the post, the row of link buttons included, is
    not sent. *)
Theorem sticker_post_sends_no_markup (w : World Bot) (update : Update.t)
    (msg : Message.t) (file_id : string) :
  Update.channel_post update = Some msg ->
  Message.photo msg = [] ->
  Message.document msg = None ->
  Message.video msg = None ->
  Message.audio msg = None ->
  Message.voice msg = None ->
  Message.sticker msg = Some file_id ->
  Forall
    (fun e =>
       forall c ok, e = EvCall c ok ->
         call_markup c = None
         /\ (c = send_sticker (call_dest c) file_id
             \/ exists t, c = send_message (call_dest c) t None))
    (snd (handle_channel_post urlparse format cfg Bot bot_call w update)).
Proof.
  intros Hpost Hp Hd Hv Ha Hvo Hs.
  unfold handle_channel_post. rewrite Hpost.
  destruct (ignored_source cfg _); [constructor |].
  destruct (already_forwarded _ _ _); [by repeat constructor |].
  destruct (resolve_text msg) as [original_text entities].
  set (cap := build_caption _ _ _ _ _).
  set (kb := final_markup _ _ _ _).
  set (P := fun e : Event =>
              forall c ok, e = EvCall c ok ->
                call_markup c = None
                /\ (c = send_sticker (call_dest c) file_id
                    \/ exists t, c = send_message (call_dest c) t None)).
  destruct (deliver_all_blocks (fun _ block => Forall P block) msg cap kb)
    with (dests := DEST_LIST cfg) (b := bot w) as (blocks & Hblocks & HF).
  { intros dest b. unfold deliver. rewrite Hp, Hd, Hv, Ha, Hvo, Hs. simpl.
    destruct (bot_call b (send_sticker dest file_id)) as [b1 ok1].
    destruct (ok1 && Py.truthy cap).
    - unfold call1. destruct (bot_call b1 _) as [b2 ok2]. simpl.
      constructor; [| constructor; [| constructor]];
        intros c ok [= <- <-]; simpl; eauto.
    - simpl. constructor; [| constructor].
      intros c ok [= <- <-]; simpl; eauto. }
  destruct (deliver_all Bot bot_call msg cap kb (DEST_LIST cfg) (bot w))
    as [b' calls]. simpl in *. subst calls.
  constructor; [done |]. apply Forall_app. split; [| by repeat constructor].
  apply Forall_concat. clear -HF.
  induction HF; constructor; done.
Qed.

End Properties.

(** ** The code on the scenarios of the specification *)

Example string_primitives :
  Py.slice "Check this out" 6 10 = "this"%string
  /\ Py.slice "abcdef" (-2) 100 = "ef"%string
  /\ Py.slice "abcdef" 4 2 = EmptyString
  /\ Py.lower "TeraBox.COM" = "terabox.com"%string
  /\ Py.rstrip "/" "https://go.example.com//" = "https://go.example.com"%string
  /\ Py.str (-1001234) = "-1001234"%string /\ Py.str 0 = "0"%string
  /\ String.length fallback_separator = 4%nat
  /\ String.length Scenario.two_newlines = 2%nat.
Proof. repeat split; reflexivity. Qed.

Example quote_plus_example :
  Quote.quote_plus "https://teraboxfiles.com/abc x"
  = "https%3A%2F%2Fteraboxfiles.com%2Fabc+x"%string.
Proof. reflexivity. Qed.

Example urlparse_examples :
  Lib.urlparse_netloc "https://TeraBox.com/s/1?x=y" = Some "TeraBox.com"%string
  /\ Lib.urlparse_netloc "http://[terabox.com/x" = None
  /\ Lib.urlparse_netloc "not a url" = Some EmptyString
  /\ Lib.urlparse_netloc "mailto:a@terabox.com" = Some EmptyString.
Proof. repeat split; reflexivity. Qed.

Example format_examples :
  let subs := [("original_text", "hi"); ("footer", "F")]%string in
  Lib.format_plain_fields "{original_text}\n\n{footer}" subs = Some "hi\n\nF"%string
  /\ Lib.format_plain_fields "{unknown}" subs = None
  /\ Lib.format_plain_fields "a{{b}}c" subs = Some "a{b}c"%string
  /\ Lib.format_plain_fields "{footer" subs = None
  /\ Lib.format_plain_fields "}" subs = None
  /\ Lib.format_plain_fields "{}" subs = None.
Proof. repeat split; reflexivity. Qed.

(** Scenario A: the tracked URL of a [url] range is replaced by its
    redirect and extracted. *)
Example scenario_A :
  replace_entities_in_text Lib.urlparse_netloc Scenario.with_base
    Scenario.plain_url_text (Some [Scenario.plain_url_range])
  = "Check this https://go.example.com/?u=https%3A%2F%2Fteraboxfiles.com%2Fabc out"%string
  /\ extract_terabox_links_from_entities Lib.urlparse_netloc
       Scenario.plain_url_text (Some [Scenario.plain_url_range])
     = ["https://teraboxfiles.com/abc"%string].
Proof. split; reflexivity. Qed.

(** Scenario B: without a redirect base the text is unchanged. *)
Example scenario_B :
  replace_entities_in_text Lib.urlparse_netloc Scenario.without_base
    Scenario.plain_url_text (Some [Scenario.plain_url_range])
  = Scenario.plain_url_text.
Proof. reflexivity. Qed.

(** Scenario C: no tracked link and one row of two action buttons. *)
Example scenario_C :
  final_markup Lib.urlparse_netloc Scenario.with_base
    (Some Scenario.action_buttons) []
  = Some Scenario.action_buttons.
Proof. reflexivity. Qed.

(** Scenario D: a sticker post with a caption makes two calls for each
    destination. *)
Example scenario_D :
  let cap := "Check this https://go.example.com/?u=https%3A%2F%2Fteraboxfiles.com%2Fabc out\n\nShared via MyBrand"%string in
  snd (handle_channel_post Lib.urlparse_netloc Lib.format_plain_fields
         Scenario.with_base nat (fun n c => (S n, true))
         (Scenario.empty_world O) (Update.mk (Some Scenario.sticker_post)))
  = [ EvExists "42" 8 false;
      EvCall (send_sticker "@first" "STICKER") true;
      EvCall (send_message "@first" cap None) true;
      EvCall (send_sticker "@second" "STICKER") true;
      EvCall (send_message "@second" cap None) true;
      EvMark "42" 8 ].
Proof. vm_compute. reflexivity. Qed.

(** Scenario E: the post of chat 42 with message id 7 handled twice. *)
Example scenario_E :
  let handle :=
    handle_channel_post Lib.urlparse_netloc Lib.format_plain_fields
      Scenario.with_base nat (fun n c => (S n, true)) in
  let post := Update.mk (Some Scenario.text_post) in
  let w1 := fst (handle (Scenario.empty_world O) post) in
  bot w1 = 2%nat
  /\ snd (handle w1 post) = [EvExists "42" 7 true]
  /\ fst (handle w1 post) = w1.
Proof. vm_compute. repeat split; reflexivity. Qed.

(** A post of chat 42 under a source filter for another chat: neither
    run queries the table or calls the client. *)
Example filtered_post_has_no_effect :
  handle_channel_post Lib.urlparse_netloc Lib.format_plain_fields
    Scenario.only_chat_99 nat Scenario.first_raises
    (Scenario.empty_world O) Scenario.post_7
  = (Scenario.empty_world O, []).
Proof. reflexivity. Qed.

(** ** The theorems at concrete inputs *)

Lemma second_attempt_delivers_nothing_witness :
  Update.channel_post Scenario.post_7 = Some Scenario.text_post
  /\ Message.chat_id Scenario.text_post = 42
  /\ Message.message_id Scenario.text_post = 7
  /\ fst (Scenario.handle_42 Scenario.after_between Scenario.post_7)
     = Scenario.after_between
  /\ List.filter is_call
       (snd (Scenario.handle_42 Scenario.after_between Scenario.post_7)) = []
  /\ List.filter is_mark
       (snd (Scenario.handle_42 Scenario.after_between Scenario.post_7)) = []
  /\ already_forwarded (db Scenario.after_between) 42 7 = true
  /\ snd (Scenario.handle_42 Scenario.after_between Scenario.post_7)
     = [EvExists "42" 7 true].
Proof.
  pose proof
    (second_attempt_delivers_nothing Lib.urlparse_netloc Lib.format_plain_fields
       Scenario.only_chat_42 nat Scenario.first_raises (Scenario.empty_world O)
       Scenario.post_7 Scenario.post_7 Scenario.text_post Scenario.text_post
       [Update.mk (Some Scenario.sticker_post)]
       eq_refl eq_refl eq_refl eq_refl) as (Hw & Hcalls & Hmarks & Hseen & Htrace).
  repeat split; try reflexivity; assumption.
Defined.

Lemma handle_commits_after_all_destinations_witness :
  ignored_source Scenario.with_base 42 = false
  /\ already_forwarded (db (Scenario.empty_world tt)) 42 7 = false
  /\ exists blocks,
       snd Scenario.all_fail
       = EvExists "42" 7 false :: concat blocks ++ [EvMark "42" 7]
       /\ Forall2 (fun dest block => block <> [] /\ Forall (call_to dest) block)
                  ["@first"; "@second"]%string blocks
       /\ List.filter is_mark (snd Scenario.all_fail) = [EvMark "42" 7]
       /\ db (fst Scenario.all_fail) = {[ ("42"%string, 7) ]} ∪ ∅
       /\ client_run Scenario.always_raises tt (snd Scenario.all_fail)
            (bot (fst Scenario.all_fail))
       /\ Forall2 (fun dest block =>
                     exists c, block = [EvCall c false] /\ call_dest c = dest)
                  ["@first"; "@second"]%string blocks.
Proof.
  split; [reflexivity |]. split; [vm_compute; reflexivity |].
  destruct (handle_commits_after_all_destinations Lib.urlparse_netloc
              Lib.format_plain_fields Scenario.with_base unit Scenario.always_raises
              (Scenario.empty_world tt) Scenario.post_7
              Scenario.text_post eq_refl eq_refl eq_refl)
    as (blocks & Htrace & Hdests & Hmark & Hdb & Hrun & Hraise).
  exists blocks. split; [exact Htrace |]. split; [exact Hdests |].
  split; [exact Hmark |]. split; [exact Hdb |]. split; [exact Hrun |].
  apply Hraise. intros b c. reflexivity.
Defined.

Lemma replace_text_link_witness :
  sorted_by_offset [Scenario.text_link_range] = [] ++ Scenario.text_link_range :: []
  /\ Scenario.rewritten_link_text
     = EmptyString +:+ "see "
       +:+ "https://go.example.com/?u=https%3A%2F%2Fterabox.com%2Ff"
       +:+ EmptyString +:+ EmptyString.
Proof.
  split; [reflexivity |].
  exact (replace_text_link Lib.urlparse_netloc Scenario.with_base Scenario.link_text
           [Scenario.text_link_range] [] [] Scenario.text_link_range
           "https://terabox.com/f" eq_refl eq_refl eq_refl
           ltac:(discriminate)).
Defined.

Lemma extract_spec_witness :
  extract_terabox_links_from_entities Lib.urlparse_netloc Scenario.plain_url_text
    (Some [Scenario.plain_url_range; Scenario.text_link_range;
           Scenario.untracked_link_range; Scenario.plain_url_range])
  = ["https://teraboxfiles.com/abc"; "https://terabox.com/f";
     "https://teraboxfiles.com/abc"]%string
  /\ candidate_urls Scenario.plain_url_text Scenario.plain_url_range
     = [String.substring 11 28 Scenario.plain_url_text]
  /\ candidate_urls Scenario.plain_url_text Scenario.text_link_range
     = ["https://terabox.com/f"%string].
Proof.
  pose proof
    (extract_spec Lib.urlparse_netloc Scenario.plain_url_text
       (Some [Scenario.plain_url_range; Scenario.text_link_range;
              Scenario.untracked_link_range; Scenario.plain_url_range]))
    as (Hall & Hurl & Hlink).
  split; [exact Hall |]. split.
  - exact (Hurl Scenario.plain_url_range eq_refl ltac:(discriminate) ltac:(discriminate)).
  - exact (Hlink Scenario.text_link_range "https://terabox.com/f"%string
             eq_refl eq_refl ltac:(discriminate)).
Defined.

Lemma is_terabox_url_iff_witness :
  Lib.urlparse_netloc "https://example.com/get?from=TERABOX" = Some "example.com"%string
  /\ is_terabox_url Lib.urlparse_netloc "https://example.com/get?from=TERABOX" = true.
Proof.
  split; [reflexivity |].
  apply (proj2 (is_terabox_url_iff Lib.urlparse_netloc
                  "https://example.com/get?from=TERABOX")).
  exists "example.com"%string. split; [reflexivity |]. right.
  exists "https://example.com/get?from="%string, "TERABOX"%string, EmptyString.
  split; reflexivity.
Defined.

Lemma build_redirect_spec_witness :
  build_redirect Scenario.without_base "https://terabox.com/a b" = "https://terabox.com/a b"%string
  /\ exists stem,
       stripped_of_slashes (REDIRECT_BASE Scenario.with_base) stem
       /\ build_redirect Scenario.with_base "https://terabox.com/a b"
          = stem +:+ "/?u=" +:+ Quote.quote_plus "https://terabox.com/a b".
Proof.
  split.
  - exact (proj1 (build_redirect_spec Scenario.without_base "https://terabox.com/a b")
             eq_refl).
  - exact (proj1 (proj2 (build_redirect_spec Scenario.with_base
                           "https://terabox.com/a b"))
             ltac:(discriminate)).
Defined.

Lemma final_markup_spec_witness :
  final_markup Lib.urlparse_netloc Scenario.with_base (Some Scenario.action_buttons)
    ["https://terabox.com/a"; "https://terabox.com/b"; "https://terabox.com/a"]%string
  = Some (InlineKeyboardMarkup.mk
            (InlineKeyboardMarkup.inline_keyboard Scenario.action_buttons
             ++ [[InlineKeyboardButton.mk "Open (Terabox)"
                    (Some "https://go.example.com/?u=https%3A%2F%2Fterabox.com%2Fa"%string)
                    None;
                  InlineKeyboardButton.mk "Open (Terabox)"
                    (Some "https://go.example.com/?u=https%3A%2F%2Fterabox.com%2Fb"%string)
                    None]]))
  /\ final_markup Lib.urlparse_netloc Scenario.with_base (Some Scenario.action_buttons) []
     = convert_inline_markup Lib.urlparse_netloc Scenario.with_base
         (Some Scenario.action_buttons).
Proof.
  split.
  - exact (proj1 (final_markup_spec Lib.urlparse_netloc Scenario.with_base
                    (Some Scenario.action_buttons)
                    ["https://terabox.com/a"; "https://terabox.com/b";
                     "https://terabox.com/a"]%string)
             ltac:(discriminate)).
  - exact (proj1 (proj2 (final_markup_spec Lib.urlparse_netloc Scenario.with_base
                           (Some Scenario.action_buttons) []))
             eq_refl).
Defined.

Lemma sticker_post_sends_no_markup_witness :
  Message.sticker Scenario.sticker_post = Some "STICKER"%string
  /\ Forall
       (fun e =>
          forall c ok, e = EvCall c ok ->
            call_markup c = None
            /\ (c = send_sticker (call_dest c) "STICKER"
                \/ exists t, c = send_message (call_dest c) t None))
       (snd (handle_channel_post Lib.urlparse_netloc Lib.format_plain_fields
               Scenario.with_base nat Scenario.first_raises
               (Scenario.empty_world O) (Update.mk (Some Scenario.sticker_post)))).
Proof.
  split; [reflexivity |].
  exact (sticker_post_sends_no_markup Lib.urlparse_netloc Lib.format_plain_fields
           Scenario.with_base nat Scenario.first_raises (Scenario.empty_world O)
           (Update.mk (Some Scenario.sticker_post)) Scenario.sticker_post "STICKER"
           eq_refl eq_refl eq_refl eq_refl eq_refl eq_refl eq_refl).
Defined.

(** ** Where the code departs from the statements of the specification *)

(** C3 as stated fails.  The text under a [text_link] range is not kept:
    with a redirect base the redirect of the target stands in its place,
    without one the target itself, and for a target that is not tracked
    the target itself. *)
Lemma text_link_text_is_replaced :
  Scenario.rewritten_link_text
  = "see https://go.example.com/?u=https%3A%2F%2Fterabox.com%2Ff"%string
  /\ Py.slice Scenario.rewritten_link_text 4 8 <> Py.slice Scenario.link_text 4 8
  /\ replace_entities_in_text Lib.urlparse_netloc Scenario.without_base
       Scenario.link_text (Some [Scenario.text_link_range])
     = "see https://terabox.com/f"%string
  /\ replace_entities_in_text Lib.urlparse_netloc Scenario.with_base
       Scenario.link_text (Some [Scenario.untracked_link_range])
     = "see https://example.com/f"%string.
Proof. repeat split; try reflexivity. vm_compute. discriminate. Qed.

(** C6 as stated fails.  The marker occurs in the URL, yet the URL is not
    tracked: [urlparse] rejects it and the [except] clause answers
    [False]. *)
Lemma unparsable_url_with_marker_is_not_tracked :
  occurs_ci TERABOX_RE_FRAGMENT "http://[terabox.com/x"
  /\ Lib.urlparse_netloc "http://[terabox.com/x" = None
  /\ is_terabox_url Lib.urlparse_netloc "http://[terabox.com/x" = false.
Proof.
  repeat split; try reflexivity.
  exists "http://["%string, "terabox"%string, ".com/x"%string. split; reflexivity.
Qed.

(** C4.  The claim: when the substitution of the template raises,
    [build_caption] does not raise and returns the text, two newline
    characters and the footer.  The code at a template with an unknown
    placeholder: [format] raises, [build_caption] returns the text, the
    four characters backslash, n, backslash, n of line 148, and the
    footer, which is not the text, two newlines and the footer. *)
Theorem build_caption_fallback_separator :
  Lib.format_plain_fields (CAPTION_TEMPLATE Scenario.unknown_placeholder)
    [ ("original_text", "hello"); ("source_channel", "42");
      ("source_msg_id", "7"); ("footer", "Shared via MyBrand") ]%string = None
  /\ Scenario.fallback_caption = "hello\n\nShared via MyBrand"%string
  /\ String.length Scenario.fallback_caption = (5 + 4 + 18)%nat
  /\ Scenario.fallback_caption
     <> ("hello" +:+ Scenario.two_newlines +:+ "Shared via MyBrand")%string.
Proof. repeat split; try reflexivity. vm_compute. discriminate. Qed.

(** ** Further properties: slices *)

Lemma substring_split (i a b : nat) (s : string) :
  String.substring i a s +:+ String.substring (i + a) b s
  = String.substring i (a + b) s.
Proof.
  revert i a b. induction s as [|c s IH]; intros [|i] [|a] b; simpl;
    try done; try (by destruct b); try apply IH.
  f_equal. apply (IH O a b).
Qed.

Lemma substring_all (s : string) : String.substring 0 (String.length s) s = s.
Proof. induction s as [|c s IH]; simpl; [done | by f_equal]. Qed.

(** A slice in terms of its clamped bounds. *)
Lemma slice_concat (text : string) (a b c : Z) :
  0 <= a -> a <= b -> b <= c ->
  Py.slice text a b +:+ Py.slice text b c = Py.slice text a c.
Proof.
  intros Ha Hab Hbc. unfold Py.slice, Py.clamp, Py.len.
  set (n := Z.of_nat (String.length text)).
  destruct (Z.ltb_spec a 0); [lia |].
  destruct (Z.ltb_spec b 0); [lia |].
  destruct (Z.ltb_spec c 0); [lia |].
  destruct (Z.ltb_spec (Z.min a n) (Z.min b n)) as [Hab' | Hab'];
    destruct (Z.ltb_spec (Z.min b n) (Z.min c n)) as [Hbc' | Hbc'];
    destruct (Z.ltb_spec (Z.min a n) (Z.min c n)) as [Hac' | Hac'];
    try lia; simpl.
  - replace (Z.to_nat (Z.min b n))
      with (Z.to_nat (Z.min a n) + Z.to_nat (Z.min b n - Z.min a n))%nat by lia.
    rewrite substring_split. f_equal; lia.
  - rewrite append_nil_r. f_equal; lia.
  - f_equal; lia.
  - done.
Qed.

Lemma slice_from_concat (text : string) (a b : Z) :
  0 <= a -> a <= b ->
  Py.slice text a b +:+ Py.slice_from text b = Py.slice_from text a.
Proof.
  intros Ha Hab. unfold Py.slice_from.
  destruct (Z.le_gt_cases b (Py.len text)) as [Hb | Hb].
  - by apply slice_concat.
  - unfold Py.slice, Py.clamp, Py.len in *.
    set (n := Z.of_nat (String.length text)) in *.
    destruct (Z.ltb_spec a 0); [lia |].
    destruct (Z.ltb_spec b 0); [lia |].
    destruct (Z.ltb_spec n 0); [lia |].
    replace (Z.min b n) with n by lia. replace (Z.min n n) with n by lia.
    rewrite Z.ltb_irrefl. apply append_nil_r.
Qed.

Lemma slice_from_zero (text : string) : Py.slice_from text 0 = text.
Proof.
  unfold Py.slice_from, Py.slice, Py.clamp, Py.len. simpl.
  destruct text as [|c t]; [done |].
  set (n := Z.of_nat (String.length (String c t))).
  assert (0 < n) by (unfold n; simpl; lia).
  destruct (Z.ltb_spec n 0); [lia |].
  replace (Z.min 0 n) with 0 by lia. replace (Z.min n n) with n by lia.
  destruct (Z.ltb_spec 0 n); [| lia].
  replace (Z.to_nat (n - 0)) with (String.length (String c t)) by (unfold n; lia).
  apply substring_all.
Qed.

(** A slice of a text put together from three parts. *)
Lemma slice_middle (pre mid post : string) :
  Py.slice (pre +:+ mid +:+ post) (Py.len pre) (Py.len pre + Py.len mid) = mid.
Proof.
  rewrite slice_substring by (unfold Py.len; lia).
  unfold Py.len. rewrite !Nat2Z.id.
  induction pre as [|c pre IH]; simpl; [| done].
  clear. induction mid as [|c mid IH]; simpl.
  - by destruct post.
  - by f_equal.
Qed.

Lemma slice_prefix (pre rest : string) :
  Py.slice (pre +:+ rest) 0 (Py.len pre) = pre.
Proof.
  pose proof (slice_middle EmptyString pre rest) as H. simpl in H.
  by rewrite Z.add_0_l in H.
Qed.

Lemma string_length_app (a b : string) :
  String.length (a +:+ b) = (String.length a + String.length b)%nat.
Proof. induction a as [|c a IH]; simpl; [done | by f_equal]. Qed.

Lemma slice_from_suffix (pre post : string) :
  Py.slice_from (pre +:+ post) (Py.len pre) = post.
Proof.
  unfold Py.slice_from.
  pose proof (slice_middle pre post EmptyString) as H.
  rewrite append_nil_r in H. rewrite <- H at 3. f_equal.
  unfold Py.len. rewrite string_length_app. lia.
Qed.

(** ** Further properties: the rewriter *)

Lemma insert_by_offset_In (x y : MessageEntity.t) (l : list MessageEntity.t) :
  In y (insert_by_offset x l) <-> y = x \/ In y l.
Proof.
  induction l as [|z l IH]; simpl; [intuition congruence |].
  destruct (MessageEntity.offset x <=? MessageEntity.offset z); simpl;
    rewrite ?IH; intuition congruence.
Qed.

Lemma sorted_by_offset_In (y : MessageEntity.t) (l : list MessageEntity.t) :
  In y (sorted_by_offset l) <-> In y l.
Proof.
  induction l as [|x l IH]; simpl; [done |].
  rewrite insert_by_offset_In, IH. intuition congruence.
Qed.

Section Rewriter.

Local Set Default Proof Using "Type".

Variable urlparse : string -> option string.
Variable cfg : Config.

(** Ranges whose pieces are the text they cover leave the text as it
    is. *)
Lemma replace_fold_verbatim (text : string) (l : list MessageEntity.t) (last : Z) :
  0 <= last ->
  laid_out last l ->
  (forall ent, In ent l ->
     entity_piece urlparse cfg text ent =
     Py.slice text (MessageEntity.offset ent)
              (MessageEntity.offset ent + MessageEntity.length ent)) ->
  Py.join (fst (fold_left (replace_step urlparse cfg text) l ([], last)))
  +:+ Py.slice_from text (snd (fold_left (replace_step urlparse cfg text) l ([], last)))
  = Py.slice_from text last.
Proof.
  revert last. induction l as [|ent l IH]; intros last Hlast Hlaid Hpieces.
  - done.
  - destruct Hlaid as (Hoff & Hlen & Hrest). simpl.
    rewrite replace_fold_acc. simpl.
    rewrite (Hpieces ent) by (by left).
    rewrite !append_assoc.
    rewrite IH; [| lia | done | intros e He; apply Hpieces; by right].
    rewrite slice_from_concat by lia.
    by rewrite slice_from_concat by lia.
Qed.

Lemma replace_verbatim (text : string) (ents : list MessageEntity.t) :
  laid_out 0 (sorted_by_offset ents) ->
  (forall ent, In ent (sorted_by_offset ents) ->
     entity_piece urlparse cfg text ent =
     Py.slice text (MessageEntity.offset ent)
              (MessageEntity.offset ent + MessageEntity.length ent)) ->
  replace_entities_in_text urlparse cfg text (Some ents) = text.
Proof.
  intros Hlaid Hpieces. unfold replace_entities_in_text.
  destruct ents as [|x l]; [by destruct text |].
  pose proof (replace_fold_verbatim text (sorted_by_offset (x :: l)) 0
                ltac:(lia) Hlaid Hpieces) as H.
  destruct (fold_left _ _ _) as [pieces last]. simpl in H.
  by rewrite join_app, <- slice_from_zero, <- H; simpl; rewrite append_nil_r.
Qed.

(** X1.  Without a redirect base, a text whose ranges do not overlap and
    hold no [text_link] with a target comes back as it was, whatever the
    ranges are and whether their URLs are tracked or not. *)
Theorem rewrite_without_base_is_identity (text : string)
    (ents : list MessageEntity.t) :
  REDIRECT_BASE cfg = EmptyString ->
  laid_out 0 (sorted_by_offset ents) ->
  (forall ent, In ent ents -> has_target ent = false) ->
  replace_entities_in_text urlparse cfg text (Some ents) = text.
Proof.
  intros Hbase Hlaid Hnolink. apply replace_verbatim; [done |].
  intros ent Hin. apply (proj1 (sorted_by_offset_In _ _)) in Hin.
  specialize (Hnolink ent Hin). unfold has_target in Hnolink.
  unfold entity_piece, redirect_if_terabox, build_redirect. rewrite Hbase. simpl.
  destruct (String.eqb (MessageEntity.type ent) "url").
  - by destruct (is_terabox_url urlparse _).
  - by rewrite Hnolink.
Qed.

Lemma extract_fold_In (text : string) (l : list MessageEntity.t) (u : string) :
  In u (fold_left (extract_step urlparse text) l []) <->
  exists ent, In ent l /\ In u (candidate_urls text ent)
              /\ is_terabox_url urlparse u = true.
Proof.
  rewrite (fold_left_snoc_flat _
             (fun e => List.filter (is_terabox_url urlparse) (candidate_urls text e)))
    by apply extract_step_candidates.
  rewrite app_nil_l, in_flat_map. split.
  - intros (ent & Hent & Hu). apply filter_In in Hu. destruct Hu as [Hu Ht].
    by exists ent.
  - intros (ent & Hent & Hu & Ht). exists ent. split; [done |].
    by apply filter_In.
Qed.

(** X2.  When no link is extracted from a text whose ranges do not
    overlap and hold no [text_link] with a target, the rewritten text is
    the text: rewriting changes nothing where extraction finds
    nothing. *)
Theorem rewrite_without_links_is_identity (text : string)
    (ents : list MessageEntity.t) :
  extract_terabox_links_from_entities urlparse text (Some ents) = [] ->
  laid_out 0 (sorted_by_offset ents) ->
  (forall ent, In ent ents -> has_target ent = false) ->
  replace_entities_in_text urlparse cfg text (Some ents) = text.
Proof.
  intros Hnone Hlaid Hnolink. apply replace_verbatim; [done |].
  intros ent Hin. apply (proj1 (sorted_by_offset_In _ _)) in Hin.
  pose proof (Hnolink ent Hin) as Hno. unfold has_target in Hno.
  unfold entity_piece, redirect_if_terabox.
  destruct (String.eqb (MessageEntity.type ent) "url") eqn:Hty;
    [| by rewrite Hno].
  destruct (is_terabox_url urlparse _) eqn:Ht; [| done].
  exfalso.
  assert (Hex : In (Py.slice text (MessageEntity.offset ent)
                      (MessageEntity.offset ent + MessageEntity.length ent))
                   (extract_terabox_links_from_entities urlparse text (Some ents))).
  { unfold extract_terabox_links_from_entities.
    destruct ents as [|x l]; [done |].
    apply extract_fold_In. exists ent. split; [done |]. split; [| done].
    unfold candidate_urls. rewrite Hty. by left. }
  by rewrite Hnone in Hex.
Qed.

(** X3.  A text with one [url] range over a tracked URL: the URL is
    replaced by its redirect, the text before and after it is kept, and
    the URL is the one link that is extracted. *)
Theorem single_tracked_url_is_redirected (pre link post : string) :
  is_terabox_url urlparse link = true ->
  let text := pre +:+ link +:+ post in
  let range := MessageEntity.mk "url" (Py.len pre) (Py.len link) None in
  replace_entities_in_text urlparse cfg text (Some [range])
  = pre +:+ build_redirect cfg link +:+ post
  /\ extract_terabox_links_from_entities urlparse text (Some [range]) = [link].
Proof.
  intros Ht. simpl.
  unfold replace_entities_in_text, extract_terabox_links_from_entities. simpl.
  unfold entity_piece, extract_step, redirect_if_terabox. simpl.
  rewrite slice_middle, Ht, slice_prefix. simpl. split; [| done].
  rewrite append_nil_r.
  replace (Py.len pre + Py.len link) with (Py.len (pre +:+ link))
    by (unfold Py.len; rewrite string_length_app; lia).
  rewrite <- (append_assoc pre link post) at 1.
  by rewrite slice_from_suffix.
Qed.

End Rewriter.

(** ** Further properties: the order of the ranges *)

Lemma insert_by_offset_perm (x : MessageEntity.t) (l : list MessageEntity.t) :
  Permutation (insert_by_offset x l) (x :: l).
Proof.
  induction l as [|y l IH]; simpl; [done |].
  destruct (MessageEntity.offset x <=? MessageEntity.offset y); [done |].
  rewrite IH. apply perm_swap.
Qed.

Lemma sorted_by_offset_perm (l : list MessageEntity.t) :
  Permutation (sorted_by_offset l) l.
Proof.
  induction l as [|x l IH]; simpl; [done |].
  by rewrite insert_by_offset_perm, IH.
Qed.

Lemma insert_by_offset_sorted (x : MessageEntity.t) (l : list MessageEntity.t) :
  StronglySorted (fun a b => MessageEntity.offset a <= MessageEntity.offset b) l ->
  StronglySorted (fun a b => MessageEntity.offset a <= MessageEntity.offset b)
                 (insert_by_offset x l).
Proof.
  induction 1 as [|y l Hl IH Hy]; simpl; [by repeat constructor |].
  destruct (Z.leb_spec (MessageEntity.offset x) (MessageEntity.offset y)) as [Hle | Hgt].
  - constructor; [by constructor |]. constructor; [done |].
    eapply Forall_impl; [exact Hy |]. simpl. intros z Hz. lia.
  - constructor; [done |].
    apply Forall_forall. intros z Hz.
    apply list_elem_of_In, insert_by_offset_In in Hz. destruct Hz as [-> | Hz]; [lia |].
    rewrite Forall_forall in Hy. apply Hy. by apply list_elem_of_In.
Qed.

Lemma insert_by_offset_filter (k : Z) (x : MessageEntity.t) (l : list MessageEntity.t) :
  List.filter (fun e => MessageEntity.offset e =? k) (insert_by_offset x l)
  = List.filter (fun e => MessageEntity.offset e =? k) (x :: l).
Proof.
  induction l as [|y l IH]; simpl; [done |].
  destruct (Z.leb_spec (MessageEntity.offset x) (MessageEntity.offset y)) as [Hle | Hgt];
    [done |].
  simpl in *. rewrite IH.
  destruct (Z.eqb_spec (MessageEntity.offset x) k) as [Hx | Hx]; [| done].
  destruct (Z.eqb_spec (MessageEntity.offset y) k) as [Hy | Hy]; [lia | done].
Qed.

Lemma sorted_by_offset_is_a_stable_sort_aux (l : list MessageEntity.t) :
  Permutation (sorted_by_offset l) l
  /\ StronglySorted (fun a b => MessageEntity.offset a <= MessageEntity.offset b)
                    (sorted_by_offset l).
Proof.
  split; [apply sorted_by_offset_perm |].
  induction l as [|x l IH]; simpl; [constructor |].
  by apply insert_by_offset_sorted.
Qed.

(** X4.  The order in which the rewriter visits the ranges: the ranges
    given, each once, by ascending offset, and ranges with the same
    offset in the order in which they were given. *)
Theorem sorted_by_offset_is_a_stable_sort (l : list MessageEntity.t) :
  Permutation (sorted_by_offset l) l
  /\ StronglySorted (fun a b => MessageEntity.offset a <= MessageEntity.offset b)
                    (sorted_by_offset l)
  /\ (forall k,
        List.filter (fun e => MessageEntity.offset e =? k) (sorted_by_offset l)
        = List.filter (fun e => MessageEntity.offset e =? k) l).
Proof.
  split; [apply sorted_by_offset_perm |]. split.
  - induction l as [|x l IH]; simpl; [constructor |].
    by apply insert_by_offset_sorted.
  - intros k. induction l as [|x l IH]; simpl; [done |].
    rewrite insert_by_offset_filter. simpl. by rewrite IH.
Qed.

Lemma same_offset_same_range (l : list MessageEntity.t) (x y : MessageEntity.t) :
  NoDup (map MessageEntity.offset l) ->
  In x l -> In y l -> MessageEntity.offset x = MessageEntity.offset y -> x = y.
Proof.
  induction l as [|z l IH]; simpl; [done |].
  intros Hnd Hx Hy Hoff. apply NoDup_cons in Hnd as [Hz Hnd].
  destruct Hx as [-> | Hx], Hy as [-> | Hy]; [done | | | by apply IH].
  - exfalso. apply Hz. rewrite Hoff. apply list_elem_of_In, in_map. by apply Hy.
  - exfalso. apply Hz. rewrite <- Hoff. apply list_elem_of_In, in_map. by apply Hx.
Qed.

Lemma ascending_unique (l1 l2 : list MessageEntity.t) :
  StronglySorted (fun a b => MessageEntity.offset a <= MessageEntity.offset b) l1 ->
  StronglySorted (fun a b => MessageEntity.offset a <= MessageEntity.offset b) l2 ->
  Permutation l1 l2 ->
  NoDup (map MessageEntity.offset l1) ->
  l1 = l2.
Proof.
  revert l2. induction l1 as [|x l1 IH]; intros l2 Hs1 Hs2 Hperm Hnd.
  - by apply Permutation_nil in Hperm.
  - destruct l2 as [|y l2]; [by apply Permutation_sym, Permutation_nil in Hperm |].
    apply StronglySorted_inv in Hs1 as [Hs1 Hx].
    apply StronglySorted_inv in Hs2 as [Hs2 Hy].
    rewrite Forall_forall in Hx, Hy.
    assert (Hxy : x = y).
    { assert (Hx2 : In x (y :: l2)).
      { eapply Permutation_in; [exact Hperm | by left]. }
      assert (Hy1 : In y (x :: l1)).
      { eapply Permutation_in; [apply Permutation_sym; exact Hperm | by left]. }
      destruct Hx2 as [-> | Hx2]; [done |].
      destruct Hy1 as [-> | Hy1]; [done |].
      apply (same_offset_same_range (x :: l1)); [done | by left | by right |].
      apply list_elem_of_In in Hx2, Hy1.
      pose proof (Hy _ Hx2). pose proof (Hx _ Hy1). lia. }
    subst y. f_equal. apply IH; [done | done | | ].
    + by apply Permutation_cons_inv in Hperm.
    + simpl in Hnd. by apply NoDup_cons in Hnd as [_ Hnd].
Qed.

(** X5.  The rewritten text does not depend on the order in which the
    ranges arrive, as long as no two ranges start at the same offset. *)
Theorem rewrite_ignores_arrival_order (urlparse : string -> option string)
    (cfg : Config) (text : string) (ents ents' : list MessageEntity.t) :
  Permutation ents ents' ->
  NoDup (map MessageEntity.offset ents) ->
  replace_entities_in_text urlparse cfg text (Some ents)
  = replace_entities_in_text urlparse cfg text (Some ents').
Proof.
  intros Hperm Hnd.
  assert (Hsame : sorted_by_offset ents = sorted_by_offset ents').
  { destruct (sorted_by_offset_is_a_stable_sort_aux ents) as [Hp Hs].
    destruct (sorted_by_offset_is_a_stable_sort_aux ents') as [Hp' Hs'].
    apply ascending_unique; [done | done | |].
    - by rewrite Hp, Hp'.
    - by rewrite Hp. }
  unfold replace_entities_in_text.
  destruct ents as [|x l], ents' as [|x' l'].
  - done.
  - by apply Permutation_nil in Hperm.
  - by apply Permutation_sym, Permutation_nil in Hperm.
  - by rewrite Hsame.
Qed.

(** ** Further properties: redirects *)

Lemma quote_plus_inj (u v : string) :
  Quote.quote_plus u = Quote.quote_plus v -> u = v.
Proof.
  intros H. rewrite <- (unquote_quote_plus u), <- (unquote_quote_plus v).
  by rewrite H.
Qed.

Lemma quote_plus_app (a b : string) :
  Quote.quote_plus (a +:+ b) = Quote.quote_plus a +:+ Quote.quote_plus b.
Proof.
  induction a as [|c a IH]; [done |].
  change (Quote.quote_plus (String c a +:+ b))
    with (Quote.quote_char c +:+ Quote.quote_plus (a +:+ b)).
  change (Quote.quote_plus (String c a))
    with (Quote.quote_char c +:+ Quote.quote_plus a).
  by rewrite IH, append_assoc.
Qed.

Lemma quote_char_length (c : ascii) : (1 <= String.length (Quote.quote_char c))%nat.
Proof. destruct c as [[] [] [] [] [] [] [] []]; vm_compute; lia. Qed.

Lemma quote_plus_length (u : string) :
  (String.length u <= String.length (Quote.quote_plus u))%nat.
Proof.
  induction u as [|c u IH]; [done |].
  change (Quote.quote_plus (String c u))
    with (Quote.quote_char c +:+ Quote.quote_plus u).
  rewrite string_length_app. pose proof (quote_char_length c). simpl. lia.
Qed.

Lemma all_chars_app (p : ascii -> bool) (a b : string) :
  Lib.all_chars p (a +:+ b) = Lib.all_chars p a && Lib.all_chars p b.
Proof.
  induction a as [|c a IH]; simpl; [done |]. by rewrite IH, andb_assoc.
Qed.

Lemma quote_char_safe (c : ascii) :
  Lib.all_chars query_safe (Quote.quote_char c) = true.
Proof. destruct c as [[] [] [] [] [] [] [] []]; reflexivity. Qed.

Lemma quote_char_letter (c : ascii) :
  Lib.is_alpha (Py.lower_char c) = true -> Quote.quote_char c = String c EmptyString.
Proof. destruct c as [[] [] [] [] [] [] [] []]; vm_compute; congruence. Qed.

Lemma quote_plus_letters (s : string) :
  Lib.all_chars Lib.is_alpha (Py.lower s) = true -> Quote.quote_plus s = s.
Proof.
  induction s as [|c s IH]; [done |].
  change (Py.lower (String c s)) with (String (Py.lower_char c) (Py.lower s)).
  change (Lib.all_chars Lib.is_alpha (String (Py.lower_char c) (Py.lower s)))
    with (Lib.is_alpha (Py.lower_char c) && Lib.all_chars Lib.is_alpha (Py.lower s)).
  intros [Hc Hs]%andb_true_iff.
  change (Quote.quote_plus (String c s))
    with (Quote.quote_char c +:+ Quote.quote_plus s).
  by rewrite (quote_char_letter c Hc), (IH Hs).
Qed.

Lemma has_char_all (p : ascii -> bool) (c : ascii) (s : string) :
  Lib.all_chars p s = true -> Py.has_char c s = true -> p c = true.
Proof.
  unfold Py.has_char. induction s as [|a s IH]; simpl; [done |].
  intros [Ha Hs]%andb_true_iff.
  destruct (Ascii.eqb_spec a c) as [-> | Hne]; [done |].
  destruct (Py.find_char c s); simpl; [| done]. intros _. by apply IH.
Qed.

Section Redirects.

Local Set Default Proof Using "Type".

Variable urlparse : string -> option string.
Variable cfg : Config.

Lemma build_redirect_inj (u v : string) :
  build_redirect cfg u = build_redirect cfg v -> u = v.
Proof.
  unfold build_redirect. destruct (Py.truthy (REDIRECT_BASE cfg)); simpl; [| done].
  intros H. apply String.app_inj in H. injection H as H.
  by apply quote_plus_inj.
Qed.

(** X6.  Different URLs get different redirects, with or without a
    redirect base: the redirect determines the URL it was built from. *)
Theorem build_redirect_is_injective (u v : string) :
  build_redirect cfg u = build_redirect cfg v <-> u = v.
Proof. split; [apply build_redirect_inj | by intros ->]. Qed.

Lemma build_redirect_longer (u : string) :
  REDIRECT_BASE cfg <> EmptyString ->
  (String.length u < String.length (build_redirect cfg u))%nat.
Proof.
  intros H. apply truthy_true in H. unfold build_redirect. rewrite H. simpl.
  rewrite !string_length_app. pose proof (quote_plus_length u). simpl. lia.
Qed.

(** X7.  With a redirect base, [build_redirect] changes every URL and is
    not idempotent: the redirect of a redirect is a third URL, longer
    than the redirect. *)
Theorem build_redirect_is_not_idempotent (u : string) :
  REDIRECT_BASE cfg <> EmptyString ->
  build_redirect cfg u <> u
  /\ build_redirect cfg (build_redirect cfg u) <> build_redirect cfg u
  /\ (String.length (build_redirect cfg u)
      < String.length (build_redirect cfg (build_redirect cfg u)))%nat.
Proof.
  intros H.
  pose proof (build_redirect_longer u H) as H1.
  pose proof (build_redirect_longer (build_redirect cfg u) H) as H2.
  split; [| split; [| done]].
  - intros Heq. rewrite Heq in H1. lia.
  - intros Heq. rewrite Heq in H2. lia.
Qed.

(** X8.  The encoded URL of a redirect is made of letters, digits and
    the characters [_.-~%+] only, so it holds no [&], [=], [#], [?], [/]
    and no space: it is one value of the query and cannot end it. *)
Theorem quote_plus_is_query_safe (u : string) :
  Lib.all_chars query_safe (Quote.quote_plus u) = true
  /\ (forall c, Py.has_char c (Quote.quote_plus u) = true -> query_safe c = true)
  /\ Py.has_char "&" (Quote.quote_plus u) = false
  /\ Py.has_char "=" (Quote.quote_plus u) = false
  /\ Py.has_char "#" (Quote.quote_plus u) = false
  /\ Py.has_char "?" (Quote.quote_plus u) = false
  /\ Py.has_char "/" (Quote.quote_plus u) = false
  /\ Py.has_char " " (Quote.quote_plus u) = false.
Proof.
  assert (Hall : Lib.all_chars query_safe (Quote.quote_plus u) = true).
  { induction u as [|c u IH]; [done |].
    change (Quote.quote_plus (String c u))
      with (Quote.quote_char c +:+ Quote.quote_plus u).
    by rewrite all_chars_app, quote_char_safe, IH. }
  assert (Hno : forall c, query_safe c = false ->
                  Py.has_char c (Quote.quote_plus u) = false).
  { intros c Hc. destruct (Py.has_char c (Quote.quote_plus u)) eqn:Hh; [| done].
    by rewrite (has_char_all _ _ _ Hall Hh) in Hc. }
  split; [done |]. split; [intros c; by apply has_char_all |].
  repeat split; by apply Hno.
Qed.

Lemma occurs_ci_quote_plus (u : string) :
  occurs_ci TERABOX_RE_FRAGMENT u ->
  occurs_ci TERABOX_RE_FRAGMENT (Quote.quote_plus u).
Proof.
  intros (pre & mid & post & -> & Hmid).
  exists (Quote.quote_plus pre), mid, (Quote.quote_plus post).
  split; [| done].
  rewrite !quote_plus_app. f_equal. f_equal.
  apply quote_plus_letters. by rewrite Hmid.
Qed.

Lemma occurs_ci_app (marker a s b : string) :
  occurs_ci marker s -> occurs_ci marker (a +:+ s +:+ b).
Proof.
  intros (pre & mid & post & -> & Hmid).
  exists (a +:+ pre), mid, (post +:+ b). split; [| done].
  by rewrite !append_assoc.
Qed.

(** X9.  The redirect of a URL that holds the marker holds the marker
    too, and is classified as tracked whenever [urlparse] accepts it:
    rewriting a text or a grid a second time would wrap the redirects
    once more. *)
Theorem redirect_of_tracked_is_tracked (u : string) :
  occurs_ci TERABOX_RE_FRAGMENT u ->
  occurs_ci TERABOX_RE_FRAGMENT (build_redirect cfg u)
  /\ (urlparse (build_redirect cfg u) <> None ->
      is_terabox_url urlparse (build_redirect cfg u) = true).
Proof.
  intros Hu.
  assert (Hocc : occurs_ci TERABOX_RE_FRAGMENT (build_redirect cfg u)).
  { unfold build_redirect. destruct (Py.truthy (REDIRECT_BASE cfg)); simpl; [| done].
    pose proof (occurs_ci_app TERABOX_RE_FRAGMENT
                  (Py.rstrip "/" (REDIRECT_BASE cfg) +:+ "/?u=")
                  (Quote.quote_plus u) EmptyString
                  (occurs_ci_quote_plus u Hu)) as H.
    by rewrite append_nil_r, append_assoc in H. }
  split; [done |]. intros Hparse. unfold is_terabox_url.
  destruct (urlparse (build_redirect cfg u)) as [netloc|]; [| done].
  apply orb_true_iff. right.
  by apply (str_in_lower _ _ lower_marker).
Qed.

(** X10.  No two buttons of the row of link buttons open the same url,
    and the row has at most as many buttons as links were extracted. *)
Theorem link_row_has_distinct_urls (terabox_links : list string) :
  NoDup (button_urls (tb_buttons_of cfg terabox_links))
  /\ (List.length (tb_buttons_of cfg terabox_links) <= List.length terabox_links)%nat.
Proof.
  rewrite tb_buttons_distinct. unfold button_urls. split.
  - pose proof (distinct_NoDup terabox_links) as Hnd.
    induction Hnd as [|x l Hx Hnd IH]; simpl; [constructor |].
    constructor; [| done].
    intros Hin. apply Hx.
    apply list_elem_of_In, in_map_iff in Hin as (b & Hb & Hin).
    apply in_map_iff in Hin as (y & <- & Hy). simpl in Hb.
    injection Hb as Hb. apply build_redirect_inj in Hb. subst y.
    by apply list_elem_of_In.
  - rewrite length_map. clear.
    induction terabox_links as [|x l IH]; simpl; [done |].
    pose proof (List.filter_length_le (fun y => negb (String.eqb y x)) (distinct l)).
    lia.
Qed.

End Redirects.

(** ** Further properties: the handler *)

Lemma str_inj (a b : Z) : Py.str a = Py.str b -> a = b.
Proof.
  unfold Py.str. intros H.
  assert (Hnn : forall z, Z.to_int z <> Decimal.Pos Decimal.Nil
                          /\ Z.to_int z <> Decimal.Neg Decimal.Nil).
  { intros z. split; intros Hz; pose proof (DecimalZ.of_to z) as Hof;
      rewrite Hz in Hof; simpl in Hof; subst z; discriminate. }
  assert (Hint : Some (Z.to_int a) = Some (Z.to_int b)).
  { rewrite <- (NilZero.isi (Z.to_int a)) by apply Hnn.
    rewrite <- (NilZero.isi (Z.to_int b)) by apply Hnn.
    by rewrite H. }
  injection Hint as Hint.
  by rewrite <- (DecimalZ.of_to a), <- (DecimalZ.of_to b), Hint.
Qed.

(** X11.  Looking a post up after it was recorded finds it, and recording
    a post changes the answer for no other post: chat ids and message
    ids that differ give keys that differ. *)
Theorem lookup_after_record (tbl : gset (string * Z)) (chat mid chat' mid' : Z) :
  already_forwarded (mark_forwarded tbl chat mid) chat' mid'
  = bool_decide (chat' = chat /\ mid' = mid) || already_forwarded tbl chat' mid'.
Proof.
  unfold already_forwarded, mark_forwarded.
  destruct (bool_decide (chat' = chat /\ mid' = mid)) eqn:Hsame; simpl.
  - apply bool_decide_eq_true in Hsame as [-> ->].
    apply bool_decide_eq_true. by apply elem_of_union_l, elem_of_singleton.
  - apply bool_decide_eq_false in Hsame.
    apply bool_decide_ext. rewrite elem_of_union, elem_of_singleton. split.
    + intros [Heq | Hin]; [| done]. exfalso. apply Hsame.
      injection Heq as Hc Hm. split; [by apply str_inj | done].
    + intros Hin. by right.
Qed.

Section Handler.

Local Set Default Proof Using "Type".

Variable urlparse : string -> option string.
Variable format : string -> list (string * string) -> option string.
Variable cfg : Config.
Variable Bot : Type.
Variable bot_call : Bot -> BotCall -> Bot * bool.

(** The run of the handler on a post that is let through and is no
    duplicate. *)
Lemma handle_delivered (w : World Bot) (update : Update.t) (msg : Message.t) :
  Update.channel_post update = Some msg ->
  ignored_source cfg (Message.chat_id msg) = false ->
  already_forwarded (db w) (Message.chat_id msg) (Message.message_id msg) = false ->
  handle_channel_post urlparse format cfg Bot bot_call w update
  = (mkWorld (mark_forwarded (db w) (Message.chat_id msg) (Message.message_id msg))
       (fst (deliver_all Bot bot_call msg (caption_of urlparse format cfg msg)
               (markup_of urlparse cfg msg) (DEST_LIST cfg) (bot w))),
     EvExists (Py.str (Message.chat_id msg)) (Message.message_id msg) false
       :: snd (deliver_all Bot bot_call msg (caption_of urlparse format cfg msg)
                 (markup_of urlparse cfg msg) (DEST_LIST cfg) (bot w))
       ++ [EvMark (Py.str (Message.chat_id msg)) (Message.message_id msg)]).
Proof.
  intros Hpost Hsrc Hdup. unfold handle_channel_post, caption_of, markup_of.
  rewrite Hpost, Hsrc, Hdup.
  destruct (resolve_text msg) as [t e]. simpl.
  by destruct (deliver_all _ _ _ _ _ _ _).
Qed.

Lemma call_dests_app (a b : list Event) :
  call_dests (a ++ b) = call_dests a ++ call_dests b.
Proof. unfold call_dests. apply flat_map_app. Qed.

Lemma call_dests_blocks (dests : list string) (blocks : list (list Event)) :
  Forall2 (fun dest block => call_dests block = [dest]) dests blocks ->
  call_dests (concat blocks) = dests.
Proof.
  induction 1 as [|d blk ds blks Hd _ IH]; simpl; [done |].
  by rewrite call_dests_app, Hd, IH.
Qed.

Lemma deliver_one_call (msg : Message.t) (cap : string)
    (kb : option InlineKeyboardMarkup.t) (dest : string) (b : Bot) :
  sticker_branch msg = false ->
  exists c ok,
    snd (deliver Bot bot_call msg cap kb dest b) = [EvCall c ok]
    /\ call_dest c = dest
    /\ (call_markup c = kb
        \/ c = forward_message dest (Message.chat_id msg) (Message.message_id msg)).
Proof.
  unfold sticker_branch, deliver, call1. intros Hns.
  destruct (Message.photo msg) as [|p ps] eqn:Hp; simpl.
  - destruct (Message.document msg) as [f|].
    { destruct (bot_call b _) as [b' ok]. eauto 10. }
    destruct (Message.video msg) as [f|].
    { destruct (bot_call b _) as [b' ok]. eauto 10. }
    destruct (Message.audio msg) as [f|].
    { destruct (bot_call b _) as [b' ok]. eauto 10. }
    destruct (Message.voice msg) as [f|].
    { destruct (bot_call b _) as [b' ok]. eauto 10. }
    destruct (Message.sticker msg) as [f|]; [done |].
    destruct (Py.truthy cap); destruct (bot_call b _) as [b' ok]; eauto 10.
  - destruct (rev ps ++ [p]) as [|q qs] eqn:Hrev.
    { by destruct (rev ps). }
    destruct (bot_call b _) as [b' ok]. eauto 10.
Qed.

(** X12.  A post that is delivered and does not go down the sticker
    branch gets one client call for each destination, in the order of
    [DEST_LIST], whether calls raise or not; and each call carries the
    markup built for the post, or is the verbatim forward. *)
Theorem one_call_per_destination (w : World Bot) (update : Update.t)
    (msg : Message.t) :
  Update.channel_post update = Some msg ->
  ignored_source cfg (Message.chat_id msg) = false ->
  already_forwarded (db w) (Message.chat_id msg) (Message.message_id msg) = false ->
  sticker_branch msg = false ->
  call_dests (snd (handle_channel_post urlparse format cfg Bot bot_call w update))
  = DEST_LIST cfg
  /\ Forall
       (fun e =>
          forall c ok, e = EvCall c ok ->
            call_markup c = markup_of urlparse cfg msg
            \/ c = forward_message (call_dest c) (Message.chat_id msg)
                     (Message.message_id msg))
       (snd (handle_channel_post urlparse format cfg Bot bot_call w update)).
Proof.
  intros Hpost Hsrc Hdup Hns. rewrite (handle_delivered w update msg) by done.
  simpl.
  set (cap := caption_of urlparse format cfg msg).
  set (kb := markup_of urlparse cfg msg).
  destruct (deliver_all_blocks Bot bot_call
              (fun dest block =>
                 call_dests block = [dest]
                 /\ Forall (fun e => forall c ok, e = EvCall c ok ->
                              call_markup c = kb
                              \/ c = forward_message (call_dest c)
                                       (Message.chat_id msg) (Message.message_id msg))
                           block)
              msg cap kb)
    with (dests := DEST_LIST cfg) (b := bot w) as (blocks & -> & HF).
  { intros dest b.
    destruct (deliver_one_call msg cap kb dest b Hns) as (c & ok & -> & Hd & Hm).
    simpl. rewrite Hd. split; [done |].
    constructor; [| constructor]. intros c' ok' [= <- <-].
    destruct Hm as [Hm | ->]; [by left | by right]. }
  split.
  - rewrite call_dests_app. simpl. rewrite app_nil_r.
    apply call_dests_blocks. eapply Forall2_impl; [exact HF |]. by intros d blk [H _].
  - constructor; [done |]. apply Forall_app. split.
    + apply Forall_concat. clear -HF.
      induction HF as [|d blk ds blks [_ Hb] _ IH]; constructor; done.
    + constructor; [done | constructor].
Qed.

Lemma deliver_call_count (msg : Message.t) (cap : string)
    (kb : option InlineKeyboardMarkup.t) (dest : string) (b : Bot) :
  (1 <= List.length (snd (deliver Bot bot_call msg cap kb dest b)) <= 2)%nat
  /\ List.filter is_call (snd (deliver Bot bot_call msg cap kb dest b))
     = snd (deliver Bot bot_call msg cap kb dest b).
Proof.
  destruct (sticker_branch msg) eqn:Hs.
  - unfold sticker_branch in Hs. unfold deliver, call1.
    destruct (Message.photo msg); [| done]. simpl.
    destruct (Message.document msg); [done |].
    destruct (Message.video msg); [done |].
    destruct (Message.audio msg); [done |].
    destruct (Message.voice msg); [done |].
    destruct (Message.sticker msg) as [f|]; [| done].
    destruct (bot_call b _) as [b1 ok].
    destruct (ok && Py.truthy cap); [destruct (bot_call b1 _) |]; simpl; split; (lia || done).
  - destruct (deliver_one_call msg cap kb dest b Hs) as (c & ok & -> & _).
    simpl. split; (lia || done).
Qed.

(** X13.  A post that is delivered gets, for each destination of
    [DEST_LIST] in the order of the list, one client call or two, all
    of them addressed to that destination, whatever the post holds and
    whatever the client does; so the calls of the run number between
    the destinations and twice the destinations.  With no destination
    configured the post gets no call and is recorded all the same. *)
Theorem number_of_calls_is_bounded (w : World Bot) (update : Update.t)
    (msg : Message.t) :
  Update.channel_post update = Some msg ->
  ignored_source cfg (Message.chat_id msg) = false ->
  already_forwarded (db w) (Message.chat_id msg) (Message.message_id msg) = false ->
  let trace := snd (handle_channel_post urlparse format cfg Bot bot_call w update) in
  (exists blocks,
     List.filter is_call trace = concat blocks
     /\ Forall2 (fun dest block =>
                   (1 <= List.length block <= 2)%nat
                   /\ Forall (call_to dest) block)
                (DEST_LIST cfg) blocks)
  /\ (List.length (DEST_LIST cfg) <= List.length (List.filter is_call trace)
      <= 2 * List.length (DEST_LIST cfg))%nat
  /\ (DEST_LIST cfg = [] ->
      trace = [EvExists (Py.str (Message.chat_id msg)) (Message.message_id msg) false;
               EvMark (Py.str (Message.chat_id msg)) (Message.message_id msg)]).
Proof.
  intros Hpost Hsrc Hdup. simpl.
  rewrite (handle_delivered w update msg) by done. simpl.
  set (cap := caption_of urlparse format cfg msg).
  set (kb := markup_of urlparse cfg msg).
  rewrite List.filter_app. simpl. rewrite app_nil_r.
  split; [| split].
  - destruct (deliver_all_blocks Bot bot_call
                (fun dest block =>
                   ((1 <= List.length block <= 2)%nat
                    /\ Forall (call_to dest) block)
                   /\ List.filter is_call block = block)
                msg cap kb) with (dests := DEST_LIST cfg) (b := bot w)
      as (blocks & -> & HF).
    { intros dest b.
      destruct (deliver_call_count msg cap kb dest b) as [Hlen Hcalls].
      destruct (deliver_attempts Bot bot_call msg cap kb dest b) as [_ Hto].
      done. }
    exists blocks. split.
    + clear -HF. induction HF as [|d blk ds blks [_ Hb] _ IH]; simpl; [done |].
      by rewrite List.filter_app, Hb, IH.
    + eapply Forall2_impl; [exact HF |]. by intros d blk [H _].
  - generalize (bot w). induction (DEST_LIST cfg) as [|d ds IH]; intros b.
    + simpl. lia.
    + rewrite deliver_all_cons. simpl. rewrite List.filter_app, length_app.
      destruct (deliver_call_count msg cap kb d b) as [Hlen ->].
      specialize (IH (fst (deliver Bot bot_call msg cap kb d b))). lia.
  - by intros ->.
Qed.

(** X14.  On a client whose calls all return, a sticker post with a
    caption that is not empty gets two calls for each destination, in
    the order of [DEST_LIST]: the sticker, then the caption as a message
    of its own. *)
Theorem sticker_then_caption (w : World Bot) (update : Update.t)
    (msg : Message.t) (file_id : string) :
  Update.channel_post update = Some msg ->
  ignored_source cfg (Message.chat_id msg) = false ->
  already_forwarded (db w) (Message.chat_id msg) (Message.message_id msg) = false ->
  sticker_branch msg = true ->
  Message.sticker msg = Some file_id ->
  caption_of urlparse format cfg msg <> EmptyString ->
  (forall b c, snd (bot_call b c) = true) ->
  List.filter is_call
    (snd (handle_channel_post urlparse format cfg Bot bot_call w update))
  = flat_map
      (fun dest =>
         [EvCall (send_sticker dest file_id) true;
          EvCall (send_message dest (caption_of urlparse format cfg msg) None) true])
      (DEST_LIST cfg).
Proof.
  intros Hpost Hsrc Hdup Hbranch Hfile Hcap Hok.
  rewrite (handle_delivered w update msg) by done. simpl.
  set (cap := caption_of urlparse format cfg msg) in *.
  set (kb := markup_of urlparse cfg msg).
  rewrite List.filter_app. simpl. rewrite app_nil_r.
  apply truthy_true in Hcap.
  assert (Hone : forall dest b,
            snd (deliver Bot bot_call msg cap kb dest b)
            = [EvCall (send_sticker dest file_id) true;
               EvCall (send_message dest cap None) true]).
  { intros dest b. unfold sticker_branch in Hbranch. unfold deliver, call1.
    destruct (Message.photo msg); [| done]. simpl.
    destruct (Message.document msg); [done |].
    destruct (Message.video msg); [done |].
    destruct (Message.audio msg); [done |].
    destruct (Message.voice msg); [done |].
    rewrite Hfile.
    pose proof (Hok b (send_sticker dest file_id)) as H1.
    destruct (bot_call b (send_sticker dest file_id)) as [b1 ok1]. simpl in H1.
    subst ok1. rewrite Hcap. simpl.
    pose proof (Hok b1 (send_message dest cap None)) as H2.
    destruct (bot_call b1 (send_message dest cap None)) as [b2 ok2]. simpl in H2.
    by subst ok2. }
  generalize (bot w). induction (DEST_LIST cfg) as [|d ds IH]; intros b; [done |].
  rewrite deliver_all_cons. simpl. rewrite List.filter_app, Hone, IH. done.
Qed.

Lemma marks_of_app (key : string * Z) (a b : list Event) :
  marks_of key (a ++ b) = marks_of key a ++ marks_of key b.
Proof. unfold marks_of. apply List.filter_app. Qed.

Lemma marks_of_calls (key : string * Z) (msg : Message.t) (cap : string)
    (kb : option InlineKeyboardMarkup.t) (dests : list string) (b : Bot) :
  marks_of key (snd (deliver_all Bot bot_call msg cap kb dests b)) = [].
Proof.
  revert b. induction dests as [|d ds IH]; intros b; [done |].
  rewrite deliver_all_cons. simpl. rewrite marks_of_app, IH, app_nil_r.
  destruct (deliver_call_count msg cap kb d b) as [_ Hcalls].
  rewrite <- Hcalls. unfold marks_of. rewrite filter_filter_comm.
  generalize (snd (deliver Bot bot_call msg cap kb d b)). intros l.
  induction l as [|e l IHl]; [done |]. simpl. by destruct e.
Qed.

(** One run inserts the key at most once, never when the key is in the
    table, and has the key in the table afterwards when it did. *)
Lemma handle_marks (w : World Bot) (update : Update.t) (key : string * Z) :
  (List.length (marks_of key
      (snd (handle_channel_post urlparse format cfg Bot bot_call w update))) <= 1)%nat
  /\ (key ∈ db w ->
      marks_of key
        (snd (handle_channel_post urlparse format cfg Bot bot_call w update)) = [])
  /\ (marks_of key
        (snd (handle_channel_post urlparse format cfg Bot bot_call w update)) <> [] ->
      key ∈ db (fst (handle_channel_post urlparse format cfg Bot bot_call w update))).
Proof.
  destruct (Update.channel_post update) as [msg|] eqn:Hpost;
    [| unfold handle_channel_post; rewrite Hpost; simpl; split; [lia | done]].
  destruct (ignored_source cfg (Message.chat_id msg)) eqn:Hsrc;
    [unfold handle_channel_post; rewrite Hpost, Hsrc; simpl; split; [lia | done] |].
  destruct (already_forwarded (db w) (Message.chat_id msg) (Message.message_id msg))
    eqn:Hdup;
    [unfold handle_channel_post; rewrite Hpost, Hsrc, Hdup; simpl; split; [lia | done] |].
  rewrite (handle_delivered w update msg) by done. simpl.
  rewrite marks_of_app, marks_of_calls. simpl.
  destruct (bool_decide_reflect
              ((Py.str (Message.chat_id msg), Message.message_id msg) = key))
    as [Hkey | Hkey]; simpl.
  - split; [lia |]. split.
    + intros Hin. apply bool_decide_eq_false in Hdup. by rewrite Hkey in Hdup.
    + intros _. rewrite <- Hkey. unfold mark_forwarded.
      by apply elem_of_union_l, elem_of_singleton.
  - split; [lia | done].
Qed.

(** X15.  Over any sequence of updates a post is recorded at most once,
    and not at all when it was in the table before: the handler never
    commits the same post twice. *)
Theorem recorded_at_most_once (w : World Bot) (updates : list Update.t)
    (key : string * Z) :
  (List.length (marks_of key
      (snd (handle_all urlparse format cfg Bot bot_call w updates))) <= 1)%nat
  /\ (key ∈ db w ->
      marks_of key (snd (handle_all urlparse format cfg Bot bot_call w updates)) = []).
Proof.
  revert w. induction updates as [|u us IH]; intros w.
  - simpl. split; [lia | done].
  - unfold handle_all. simpl.
    destruct (handle_marks w u key) as (Hlen & Hold & Hnew).
    pose proof (handle_keeps_keys urlparse format cfg Bot bot_call w u key) as Hkeep.
    destruct (handle_channel_post urlparse format cfg Bot bot_call w u) as [w1 tr1].
    simpl in *. rewrite handle_all_acc. simpl. rewrite marks_of_app.
    destruct (IH w1) as [IHlen IHold]. split.
    + destruct (marks_of key tr1) as [|e tr] eqn:Htr.
      * done.
      * rewrite IHold by (apply Hnew; done). rewrite app_nil_r. done.
    + intros Hin. by rewrite Hold, IHold by auto.
Qed.

(** X16.  The table after any sequence of updates holds the keys it held
    before and the keys of the posts of the sequence that the source
    filter lets through, and no other key: no record is lost and none is
    made up. *)
Theorem table_after_updates (w : World Bot) (updates : list Update.t)
    (key : string * Z) :
  key ∈ db (fst (handle_all urlparse format cfg Bot bot_call w updates))
  <-> key ∈ db w
      \/ exists msg,
           In (Update.mk (Some msg)) updates
           /\ ignored_source cfg (Message.chat_id msg) = false
           /\ key = key_of msg.
Proof.
  revert w. induction updates as [|u us IH]; intros w.
  - simpl. split; [by left | by intros [? | (msg & [] & _)]].
  - unfold handle_all. simpl.
    assert (Hone : key ∈ db (fst (handle_channel_post urlparse format cfg Bot
                                    bot_call w u))
                   <-> key ∈ db w
                       \/ exists msg, u = Update.mk (Some msg)
                            /\ ignored_source cfg (Message.chat_id msg) = false
                            /\ key = key_of msg).
    { destruct u as [[msg|]]; unfold handle_channel_post; simpl.
      - destruct (ignored_source cfg (Message.chat_id msg)) eqn:Hsrc; simpl.
        { split; [by left |]. intros [? | (m & [= <-] & Hm & _)]; [done | congruence]. }
        destruct (already_forwarded (db w) _ _) eqn:Hdup; simpl.
        { apply bool_decide_eq_true in Hdup. split; [by left |].
          intros [? | (m & [= <-] & _ & ->)]; done. }
        destruct (resolve_text msg) as [t e].
        destruct (deliver_all _ _ _ _ _ _ _) as [b' calls]. simpl.
        unfold mark_forwarded. rewrite elem_of_union, elem_of_singleton. split.
        + intros [-> | ?]; [right | by left]. by exists msg.
        + intros [? | (m & [= <-] & _ & ->)]; [by right | by left].
      - split; [by left |]. by intros [? | (m & [=] & _)]. }
    destruct (handle_channel_post urlparse format cfg Bot bot_call w u) as [w1 tr1].
    rewrite handle_all_acc. simpl in *. rewrite IH, Hone. split.
    + intros [[? | (m & -> & Hm & Hk)] | (m & Hin & Hm & Hk)].
      * by left.
      * right. exists m. split; [by left | done].
      * right. exists m. split; [by right | done].
    + intros [? | (m & [Hu | Hin] & Hm & Hk)].
      * by left; left.
      * left. right. by exists m.
      * right. by exists m.
Qed.

(** X17.  A grid of buttons that have a label, an action and no url is
    converted to itself, and is the markup that is sent when no link was
    extracted. *)
Theorem action_grid_is_unchanged (m : InlineKeyboardMarkup.t) :
  (forall row b,
     In row (InlineKeyboardMarkup.inline_keyboard m) -> In b row ->
     InlineKeyboardButton.url b = None
     /\ InlineKeyboardButton.text b <> EmptyString
     /\ exists d, InlineKeyboardButton.callback_data b = Some d /\ d <> EmptyString) ->
  convert_inline_markup urlparse cfg (Some m) = Some m
  /\ final_markup urlparse cfg (Some m) [] = Some m.
Proof.
  intros Hgrid.
  assert (Hconv : convert_inline_markup urlparse cfg (Some m) = Some m).
  { rewrite convert_inline_markup_rows. destruct m as [rows]. simpl in *.
    do 2 f_equal. rewrite <- (map_id rows) at 2.
    apply map_ext_in. intros row Hrow.
    rewrite <- (map_id row) at 2. apply map_ext_in. intros b Hb.
    destruct (Hgrid row b Hrow Hb) as (Hurl & Htext & d & Hd & Hne).
    destruct b as [text url cb]. simpl in *. subst url cb.
    unfold convert_button. simpl.
    apply truthy_true in Hne. rewrite Hne.
    by destruct text. }
  split; [done |]. unfold final_markup. by rewrite Hconv.
Qed.

End Handler.

(** ** Further properties: the list of destinations *)

Lemma lstrip_head (s : string) :
  Startup.lstrip s = EmptyString
  \/ exists c r, Startup.lstrip s = String c r /\ Startup.is_space c = false.
Proof.
  induction s as [|c s IH]; simpl; [by left |].
  destruct (Startup.is_space c) eqn:Hc; [done |]. right. by exists c, s.
Qed.

Lemma lstrip_fixed (c : ascii) (r : string) :
  Startup.is_space c = false -> Startup.lstrip (String c r) = String c r.
Proof. intros H. simpl. by rewrite H. Qed.

Lemma rstrip_head (c : ascii) (r : string) :
  Startup.is_space c = false -> exists r', Startup.rstrip (String c r) = String c r'.
Proof.
  intros H. simpl. destruct (Startup.rstrip r); [rewrite H |]; eauto.
Qed.

Lemma rstrip_idem (s : string) : Startup.rstrip (Startup.rstrip s) = Startup.rstrip s.
Proof.
  induction s as [|a s IH]; simpl; [done |].
  destruct (Startup.rstrip s) as [|b r] eqn:Hr.
  - destruct (Startup.is_space a) eqn:Ha; simpl; [done | by rewrite Ha].
  - simpl in *. by rewrite IH.
Qed.

Lemma strip_idem (s : string) : Startup.strip (Startup.strip s) = Startup.strip s.
Proof.
  unfold Startup.strip.
  destruct (lstrip_head s) as [-> | (c & r & -> & Hc)]; [done |].
  destruct (rstrip_head c r Hc) as [r' Hr']. rewrite Hr'.
  rewrite (lstrip_fixed c r' Hc), <- Hr'. apply rstrip_idem.
Qed.

Lemma has_char_cons (c a : ascii) (s : string) :
  Py.has_char c (String a s) = Ascii.eqb a c || Py.has_char c s.
Proof.
  unfold Py.has_char. simpl. destruct (Ascii.eqb a c); [done |].
  by destruct (Py.find_char c s).
Qed.

Lemma lstrip_no_char (c : ascii) (s : string) :
  Py.has_char c s = false -> Py.has_char c (Startup.lstrip s) = false.
Proof.
  induction s as [|a s IH]; simpl; [done |].
  destruct (Startup.is_space a); [| done].
  rewrite has_char_cons. intros [_ H]%orb_false_iff. by apply IH.
Qed.

Lemma rstrip_no_char (c : ascii) (s : string) :
  Py.has_char c s = false -> Py.has_char c (Startup.rstrip s) = false.
Proof.
  induction s as [|a s IH]; [done |].
  rewrite has_char_cons. intros [Ha Hs]%orb_false_iff. simpl.
  destruct (Startup.rstrip s) as [|b r] eqn:Hr.
  - destruct (Startup.is_space a); [done |]. by rewrite has_char_cons, Ha.
  - rewrite has_char_cons, Ha. simpl. by apply IH.
Qed.

Lemma split_comma_pieces (s : string) :
  Forall (fun piece => Py.has_char "," piece = false) (Startup.split_comma s).
Proof.
  induction s as [|c s IH]; simpl; [by repeat constructor |].
  destruct (Ascii.eqb_spec c ",") as [-> | Hne]; [by constructor |].
  destruct (Startup.split_comma s) as [|piece pieces].
  - constructor; [| constructor]. rewrite has_char_cons.
    apply orb_false_iff. split; [by apply Ascii.eqb_neq | done].
  - apply Forall_cons in IH as [Hp Hps]. constructor; [| done].
    rewrite has_char_cons, Hp.
    apply orb_false_iff. split; [by apply Ascii.eqb_neq | done].
Qed.

Lemma split_comma_whole (a : string) :
  Py.has_char "," a = false -> Startup.split_comma a = [a].
Proof.
  induction a as [|c a IH]; [done |].
  rewrite has_char_cons. intros [Hc Ha]%orb_false_iff. simpl.
  by rewrite Hc, (IH Ha).
Qed.

Lemma split_comma_app (a rest : string) :
  Py.has_char "," a = false ->
  Startup.split_comma (a +:+ "," +:+ rest) = a :: Startup.split_comma rest.
Proof.
  induction a as [|c a IH]; [done |].
  rewrite has_char_cons. intros [Hc Ha]%orb_false_iff.
  specialize (IH Ha). simpl in *. by rewrite Hc, IH.
Qed.

(** X18.  Every destination of [DEST_LIST] is a name that is not empty,
    has no white space at either end and holds no comma, whatever
    [DEST_CHANNELS] is. *)
Theorem dest_list_names_are_clean (DEST_CHANNELS d : string) :
  In d (Startup.dest_list DEST_CHANNELS) ->
  d <> EmptyString
  /\ Startup.strip d = d
  /\ Py.has_char "," d = false.
Proof.
  unfold Startup.dest_list. intros Hd.
  apply in_map_iff in Hd as (piece & <- & Hpiece).
  apply filter_In in Hpiece as [Hpiece Hne].
  split; [by apply truthy_true |]. split; [apply strip_idem |].
  pose proof (split_comma_pieces DEST_CHANNELS) as Hall.
  rewrite Forall_forall in Hall.
  unfold Startup.strip. apply rstrip_no_char, lstrip_no_char, Hall.
  by apply list_elem_of_In.
Qed.

(** X19.  A list of names that are not empty, have no white space at
    either end and hold no comma is read back from its join on commas:
    [DEST_LIST] of the joined names is the list of names. *)
Theorem dest_list_of_joined_names (names : list string) :
  Forall (fun d => d <> EmptyString /\ Startup.strip d = d
                   /\ Py.has_char "," d = false) names ->
  Startup.dest_list (Startup.join_comma names) = names.
Proof.
  intros Hclean. unfold Startup.dest_list.
  destruct names as [|d0 names]; [done |].
  assert (Hsplit : Startup.split_comma (Startup.join_comma (d0 :: names))
                   = d0 :: names).
  { clear -Hclean. revert d0 Hclean. induction names as [|d1 names IH];
      intros d0 Hclean; apply Forall_cons in Hclean as [(_ & _ & Hc) Hrest].
    - by apply split_comma_whole.
    - change (Startup.join_comma (d0 :: d1 :: names))
        with (d0 +:+ "," +:+ Startup.join_comma (d1 :: names)).
      by rewrite split_comma_app, IH. }
  rewrite Hsplit. clear Hsplit.
  induction Hclean as [|d l (Hne & Hstrip & _) _ IH]; [done |].
  simpl. rewrite Hstrip. apply truthy_true in Hne. rewrite Hne. simpl.
  by rewrite Hstrip, IH.
Qed.

(** ** Further properties: the webhook *)

Lemma substring_length (n m : nat) (s : string) :
  (n + m <= String.length s)%nat -> String.length (String.substring n m s) = m.
Proof.
  revert n m. induction s as [|c s IH]; intros [|n] [|m] H; simpl in *;
    try done; try lia.
  - f_equal. apply (IH O m). lia.
  - apply (IH n O). lia.
  - apply (IH n (S m)). lia.
Qed.

(** X20.  The default webhook path is [/webhook/] followed by the last
    twenty characters of the bot token, or by the whole token when it is
    shorter; without a token it is [/webhook/secret]. *)
Theorem default_webhook_path_shows_token_tail (BOT_TOKEN : option string) :
  (forall token, BOT_TOKEN = Some token -> token <> EmptyString ->
     exists head tail,
       token = head +:+ tail
       /\ String.length tail = Nat.min 20 (String.length token)
       /\ Startup.default_webhook_path BOT_TOKEN = "/webhook/" +:+ tail)
  /\ (Py.truthy_opt BOT_TOKEN = false ->
      Startup.default_webhook_path BOT_TOKEN = "/webhook/secret"%string).
Proof.
  split.
  - intros token -> Hne. unfold Startup.default_webhook_path.
    change (Py.truthy_opt (Some token)) with (Py.truthy token).
    change (default EmptyString (Some token)) with token.
    apply truthy_true in Hne. rewrite Hne.
    set (n := String.length token).
    assert (Hn : (0 < n)%nat) by (unfold n; destruct token; [done | simpl; lia]).
    set (k := (n - Nat.min 20 n)%nat).
    exists (String.substring 0 k token), (String.substring k (n - k) token).
    split; [| split].
    + pose proof (substring_split 0 k (n - k) token) as H. simpl in H.
      rewrite H. replace (k + (n - k))%nat with n by lia.
      symmetry. apply substring_all.
    + rewrite substring_length by (unfold n in *; lia). lia.
    + f_equal. unfold Py.slice_from, Py.slice, Py.clamp, Py.len. fold n.
      change (-20 <? 0) with true. cbv iota.
      destruct (Z.ltb_spec (Z.of_nat n) 0); [lia |].
      replace (Z.min (Z.of_nat n) (Z.of_nat n)) with (Z.of_nat n) by lia.
      destruct (Z.ltb_spec (Z.max 0 (-20 + Z.of_nat n)) (Z.of_nat n)); [| lia].
      f_equal; lia.
  - intros H. unfold Startup.default_webhook_path. by rewrite H.
Qed.

Section Endpoint.

Local Set Default Proof Using "Type".

Variable Body Json Item : Type.
Variable request_json : Body -> option Json.
Variable de_json : Json -> option Item.
Variable SECRET_TOKEN : string.

Lemma header_differs_authorised (request : Webhook.Request Body) :
  Py.truthy SECRET_TOKEN && Webhook.header_differs SECRET_TOKEN
                              (Webhook.secret_header request)
  = negb (Webhook.authorised Body SECRET_TOKEN request).
Proof.
  unfold Webhook.header_differs, Webhook.authorised.
  destruct (Py.truthy SECRET_TOKEN); simpl; [| done].
  by destruct (Webhook.secret_header request).
Qed.

(** X21.  After any sequence of requests the update queue holds, behind
    what it held, the updates of the requests that were let through and
    whose body could be read, in the order of arrival; with a secret
    configured, a request whose header is missing or differs from the
    secret is answered 403 and adds nothing. *)
Theorem webhook_enqueues_authorised_only (queue : list Item)
    (requests : list (Webhook.Request Body)) :
  Webhook.serve Body Json Item request_json de_json SECRET_TOKEN queue requests
  = queue
    ++ flat_map
         (fun r => match Webhook.read_update Body Json Item request_json de_json
                           (Webhook.body r) with
                   | Some update => [update]
                   | None => []
                   end)
         (List.filter (Webhook.authorised Body SECRET_TOKEN) requests)
  /\ (forall r,
        SECRET_TOKEN <> EmptyString ->
        Webhook.secret_header r <> Some SECRET_TOKEN ->
        Webhook.telegram_webhook Body Json Item request_json de_json
          SECRET_TOKEN queue r
        = (queue, Webhook.Forbidden)).
Proof.
  split.
  - unfold Webhook.serve. revert queue.
    induction requests as [|r rs IH]; intros queue; simpl.
    + by rewrite app_nil_r.
    + rewrite IH. unfold Webhook.telegram_webhook, Webhook.read_update.
      rewrite header_differs_authorised.
      destruct (Webhook.authorised Body SECRET_TOKEN r); simpl; [| done].
      destruct (request_json (Webhook.body r)) as [parsed|]; simpl; [| done].
      destruct (de_json parsed); simpl; [| done].
      by rewrite <- app_assoc.
  - intros r Hsecret Hheader. unfold Webhook.telegram_webhook.
    apply truthy_true in Hsecret. rewrite Hsecret. simpl.
    unfold Webhook.header_differs.
    destruct (Webhook.secret_header r) as [h|]; [| done].
    destruct (String.eqb_spec h SECRET_TOKEN) as [-> | Hne]; [done | done].
Qed.

End Endpoint.

(** ** Further properties: the caption under the default template *)

Lemma format_default_template (t c i f : string) :
  Lib.format_plain_fields "{original_text}\n\n{footer}"
    [ ("original_text", t); ("source_channel", c);
      ("source_msg_id", i); ("footer", f) ]%string
  = Some (t +:+ "\n\n" +:+ f +:+ EmptyString).
Proof. reflexivity. Qed.

(** X22.  Under the default template the caption is the rewritten text,
    the separator of four characters and the footer, the very string of
    the fallback; it is never empty, so a post that is delivered is never
    forwarded verbatim. *)
Theorem default_template_caption (urlparse : string -> option string)
    (cfg : Config) (Bot : Type) (bot_call : Bot -> BotCall -> Bot * bool)
    (w : World Bot) (update : Update.t) (msg : Message.t) :
  CAPTION_TEMPLATE cfg = "{original_text}\n\n{footer}"%string ->
  caption_of urlparse Lib.format_plain_fields cfg msg
  = replace_entities_in_text urlparse cfg
      (fst (resolve_text msg)) (snd (resolve_text msg))
    +:+ fallback_separator +:+ FOOTER_TEXT cfg
  /\ caption_of urlparse Lib.format_plain_fields cfg msg <> EmptyString
  /\ Forall
       (fun e => forall dest chat mid ok,
                   e <> EvCall (forward_message dest chat mid) ok)
       (snd (handle_channel_post urlparse Lib.format_plain_fields cfg Bot bot_call
               w update)).
Proof.
  intros Htpl.
  assert (Hcap : forall t c i,
            build_caption Lib.format_plain_fields cfg t c i
            = t +:+ fallback_separator +:+ FOOTER_TEXT cfg).
  { intros t c i. unfold build_caption. rewrite Htpl, !or_else_empty.
    rewrite format_default_template. by rewrite append_nil_r. }
  assert (Hne : forall t c i,
            Py.truthy (build_caption Lib.format_plain_fields cfg t c i) = true).
  { intros t c i. rewrite Hcap. by destruct t. }
  split; [apply Hcap |]. split; [apply truthy_true, Hne |].
  unfold handle_channel_post.
  destruct (Update.channel_post update) as [m|]; [| constructor].
  destruct (ignored_source cfg _); [constructor |].
  destruct (already_forwarded _ _ _); [by repeat constructor |].
  destruct (resolve_text m) as [t e].
  set (cap := build_caption _ _ _ _ _).
  set (kb := final_markup _ _ _ _).
  destruct (deliver_all_blocks Bot bot_call
              (fun _ block =>
                 Forall (fun e => forall dest chat mid ok,
                           e <> EvCall (forward_message dest chat mid) ok) block)
              m cap kb)
    with (dests := DEST_LIST cfg) (b := bot w) as (blocks & Hblocks & HF).
  { intros dest b. unfold deliver, call1.
    assert (Hc : Py.truthy cap = true) by (unfold cap; apply Hne).
    rewrite Hc.
    destruct (rev (Message.photo m));
      [| destruct (bot_call b _); by repeat constructor].
    destruct (Message.document m); [destruct (bot_call b _); by repeat constructor |].
    destruct (Message.video m); [destruct (bot_call b _); by repeat constructor |].
    destruct (Message.audio m); [destruct (bot_call b _); by repeat constructor |].
    destruct (Message.voice m); [destruct (bot_call b _); by repeat constructor |].
    destruct (Message.sticker m).
    - destruct (bot_call b _) as [b1 ok]. destruct (ok && _).
      + destruct (bot_call b1 _). by repeat constructor.
      + by repeat constructor.
    - destruct (bot_call b _). by repeat constructor. }
  destruct (deliver_all Bot bot_call m cap kb (DEST_LIST cfg) (bot w)) as [b' calls].
  simpl in *. subst calls.
  constructor; [done |]. apply Forall_app. split; [| by repeat constructor].
  apply Forall_concat. clear -HF. induction HF; constructor; done.
Qed.

(** ** The further theorems at concrete inputs *)

Lemma rewrite_without_base_is_identity_witness :
  REDIRECT_BASE Scenario.without_base = EmptyString
  /\ replace_entities_in_text Lib.urlparse_netloc Scenario.without_base
       Scenario.plain_url_text
       (Some [Scenario.plain_url_range; Cases.bold_range])
     = Scenario.plain_url_text.
Proof.
  split; [reflexivity |].
  apply (rewrite_without_base_is_identity Lib.urlparse_netloc Scenario.without_base
           Scenario.plain_url_text [Scenario.plain_url_range; Cases.bold_range]).
  - reflexivity.
  - simpl. lia.
  - intros ent [<- | [<- | []]]; reflexivity.
Defined.

Lemma rewrite_without_links_is_identity_witness :
  extract_terabox_links_from_entities Lib.urlparse_netloc Cases.untracked_text
    (Some [Cases.untracked_url_range; Cases.greeting_range]) = []
  /\ replace_entities_in_text Lib.urlparse_netloc Scenario.with_base
       Cases.untracked_text
       (Some [Cases.untracked_url_range; Cases.greeting_range])
     = Cases.untracked_text.
Proof.
  split; [reflexivity |].
  apply (rewrite_without_links_is_identity Lib.urlparse_netloc Scenario.with_base
           Cases.untracked_text [Cases.untracked_url_range; Cases.greeting_range]).
  - reflexivity.
  - simpl. lia.
  - intros ent [<- | [<- | []]]; reflexivity.
Defined.

Lemma single_tracked_url_is_redirected_witness :
  is_terabox_url Lib.urlparse_netloc "https://teraboxfiles.com/abc" = true
  /\ replace_entities_in_text Lib.urlparse_netloc Scenario.with_base
       ("Check this " +:+ "https://teraboxfiles.com/abc" +:+ " out")
       (Some [MessageEntity.mk "url" (Py.len "Check this ")
                (Py.len "https://teraboxfiles.com/abc") None])
     = "Check this "
       +:+ build_redirect Scenario.with_base "https://teraboxfiles.com/abc"
       +:+ " out".
Proof.
  split; [reflexivity |].
  exact (proj1 (single_tracked_url_is_redirected Lib.urlparse_netloc
                  Scenario.with_base "Check this " "https://teraboxfiles.com/abc"
                  " out" eq_refl)).
Defined.

Lemma rewrite_ignores_arrival_order_witness :
  replace_entities_in_text Lib.urlparse_netloc Scenario.with_base
    Scenario.plain_url_text (Some [Scenario.plain_url_range; Cases.bold_range])
  = replace_entities_in_text Lib.urlparse_netloc Scenario.with_base
      Scenario.plain_url_text (Some [Cases.bold_range; Scenario.plain_url_range]).
Proof.
  apply (rewrite_ignores_arrival_order Lib.urlparse_netloc Scenario.with_base
           Scenario.plain_url_text).
  - apply perm_swap.
  - apply NoDup_cons. split; [| apply NoDup_singleton].
    intros H. apply list_elem_of_In in H. simpl in H.
    destruct H as [H | []]. discriminate H.
Defined.

Lemma build_redirect_is_not_idempotent_witness :
  REDIRECT_BASE Scenario.with_base <> EmptyString
  /\ build_redirect Scenario.with_base
       (build_redirect Scenario.with_base "https://terabox.com/f")
     <> build_redirect Scenario.with_base "https://terabox.com/f".
Proof.
  split; [discriminate |].
  exact (proj1 (proj2 (build_redirect_is_not_idempotent Scenario.with_base
                         "https://terabox.com/f" ltac:(discriminate)))).
Defined.

Lemma redirect_of_tracked_is_tracked_witness :
  occurs_ci TERABOX_RE_FRAGMENT "https://TeraBox.com/f"
  /\ is_terabox_url Lib.urlparse_netloc
       (build_redirect Scenario.with_base "https://TeraBox.com/f") = true.
Proof.
  assert (H : occurs_ci TERABOX_RE_FRAGMENT "https://TeraBox.com/f").
  { exists "https://"%string, "TeraBox"%string, ".com/f"%string.
    split; reflexivity. }
  split; [exact H |].
  apply (proj2 (redirect_of_tracked_is_tracked Lib.urlparse_netloc
                  Scenario.with_base "https://TeraBox.com/f" H)).
  discriminate.
Defined.

Lemma one_call_per_destination_witness :
  sticker_branch Cases.photo_post = false
  /\ call_dests
       (snd (handle_channel_post Lib.urlparse_netloc Lib.format_plain_fields
               Scenario.with_base nat Scenario.first_raises
               (Scenario.empty_world O) (Update.mk (Some Cases.photo_post))))
     = ["@first"; "@second"]%string.
Proof.
  split; [reflexivity |].
  exact (proj1 (one_call_per_destination Lib.urlparse_netloc Lib.format_plain_fields
                  Scenario.with_base nat Scenario.first_raises
                  (Scenario.empty_world O) (Update.mk (Some Cases.photo_post))
                  Cases.photo_post eq_refl eq_refl eq_refl eq_refl)).
Defined.

Lemma number_of_calls_is_bounded_witness :
  ignored_source Scenario.with_base 42 = false
  /\ exists blocks,
       List.filter is_call
         (snd (handle_channel_post Lib.urlparse_netloc Lib.format_plain_fields
                 Scenario.with_base nat Scenario.first_raises
                 (Scenario.empty_world O)
                 (Update.mk (Some Scenario.sticker_post))))
       = concat blocks
       /\ Forall2 (fun dest block =>
                     (1 <= List.length block <= 2)%nat
                     /\ Forall (call_to dest) block)
                  ["@first"; "@second"]%string blocks.
Proof.
  split; [reflexivity |].
  exact (proj1 (number_of_calls_is_bounded Lib.urlparse_netloc
                  Lib.format_plain_fields Scenario.with_base nat
                  Scenario.first_raises (Scenario.empty_world O)
                  (Update.mk (Some Scenario.sticker_post)) Scenario.sticker_post
                  eq_refl eq_refl eq_refl)).
Defined.

Lemma sticker_then_caption_witness :
  sticker_branch Scenario.sticker_post = true
  /\ List.filter is_call
       (snd (handle_channel_post Lib.urlparse_netloc Lib.format_plain_fields
               Scenario.with_base nat Cases.never_raises
               (Scenario.empty_world O) (Update.mk (Some Scenario.sticker_post))))
     = flat_map
         (fun dest =>
            [EvCall (send_sticker dest "STICKER") true;
             EvCall (send_message dest
                       (caption_of Lib.urlparse_netloc Lib.format_plain_fields
                          Scenario.with_base Scenario.sticker_post) None) true])
         ["@first"; "@second"]%string.
Proof.
  split; [reflexivity |].
  apply (sticker_then_caption Lib.urlparse_netloc Lib.format_plain_fields
           Scenario.with_base nat Cases.never_raises (Scenario.empty_world O)
           (Update.mk (Some Scenario.sticker_post)) Scenario.sticker_post "STICKER");
    try reflexivity.
  vm_compute. discriminate.
Defined.

Lemma recorded_at_most_once_witness :
  (List.length
     (marks_of ("42"%string, 7%Z)
        (snd (handle_all Lib.urlparse_netloc Lib.format_plain_fields
                Scenario.with_base nat Scenario.first_raises
                (Scenario.empty_world O)
                [Scenario.post_7; Update.mk (Some Cases.other_post);
                 Scenario.post_7; Scenario.post_7]))) <= 1)%nat.
Proof.
  exact (proj1 (recorded_at_most_once Lib.urlparse_netloc Lib.format_plain_fields
                  Scenario.with_base nat Scenario.first_raises
                  (Scenario.empty_world O)
                  [Scenario.post_7; Update.mk (Some Cases.other_post);
                   Scenario.post_7; Scenario.post_7]
                  ("42"%string, 7%Z))).
Defined.

Lemma action_grid_is_unchanged_witness :
  convert_inline_markup Lib.urlparse_netloc Scenario.with_base
    (Some Scenario.action_buttons) = Some Scenario.action_buttons.
Proof.
  apply (action_grid_is_unchanged Lib.urlparse_netloc Scenario.with_base
           Scenario.action_buttons).
  intros row b [<- | []] [<- | [<- | []]]; simpl;
    (split; [reflexivity |]; split; [discriminate |]; eexists; split;
     [reflexivity | discriminate]).
Defined.

Lemma dest_list_names_are_clean_witness :
  Startup.dest_list " @first , ,@second,, " = ["@first"; "@second"]%string
  /\ Startup.strip "@first" = "@first"%string
  /\ Py.has_char "," "@first" = false.
Proof.
  split; [reflexivity |].
  exact (proj2 (dest_list_names_are_clean " @first , ,@second,, " "@first"
                  ltac:(vm_compute; left; reflexivity))).
Defined.

Lemma dest_list_of_joined_names_witness :
  Startup.join_comma ["@first"; "-1001234"; "@second"]%string
  = "@first,-1001234,@second"%string
  /\ Startup.dest_list (Startup.join_comma ["@first"; "-1001234"; "@second"]%string)
     = ["@first"; "-1001234"; "@second"]%string.
Proof.
  split; [reflexivity |].
  apply dest_list_of_joined_names.
  repeat (apply Forall_cons; split;
          [split; [discriminate | split; reflexivity] |]).
  apply Forall_nil. exact I.
Defined.

Lemma default_webhook_path_shows_token_tail_witness :
  Startup.default_webhook_path (Some "123456:ABCDEFGHIJKLMNOPQRSTUVWXYZ"%string)
  = "/webhook/GHIJKLMNOPQRSTUVWXYZ"%string
  /\ Startup.default_webhook_path None = "/webhook/secret"%string.
Proof.
  split; [reflexivity |].
  exact (proj2 (default_webhook_path_shows_token_tail None) eq_refl).
Defined.

Lemma webhook_enqueues_authorised_only_witness :
  Webhook.telegram_webhook nat nat Update.t Some Cases.update_of_nat "s3cret" []
    (Cases.secret_request (Some "guess"%string) 1)
  = ([], Webhook.Forbidden)
  /\ Webhook.serve nat nat Update.t Some Cases.update_of_nat "s3cret" []
       [Cases.secret_request (Some "s3cret"%string) 1;
        Cases.secret_request None 2;
        Cases.secret_request (Some "guess"%string) 3;
        Cases.secret_request (Some "s3cret"%string) 0;
        Cases.secret_request (Some "s3cret"%string) 4]
     = omap Cases.update_of_nat [1; 4]%nat.
Proof.
  split.
  - apply (proj2 (webhook_enqueues_authorised_only nat nat Update.t Some
                    Cases.update_of_nat "s3cret" [] [])).
    + discriminate.
    + discriminate.
  - exact (proj1 (webhook_enqueues_authorised_only nat nat Update.t Some
                    Cases.update_of_nat "s3cret" []
                    [Cases.secret_request (Some "s3cret"%string) 1;
                     Cases.secret_request None 2;
                     Cases.secret_request (Some "guess"%string) 3;
                     Cases.secret_request (Some "s3cret"%string) 0;
                     Cases.secret_request (Some "s3cret"%string) 4])).
Defined.

Lemma default_template_caption_witness :
  CAPTION_TEMPLATE Scenario.with_base = "{original_text}\n\n{footer}"%string
  /\ caption_of Lib.urlparse_netloc Lib.format_plain_fields Scenario.with_base
       Cases.other_post
     = "plain words\n\nShared via MyBrand"%string.
Proof.
  split; [reflexivity |].
  exact (proj1 (default_template_caption Lib.urlparse_netloc Scenario.with_base
                  nat Scenario.first_raises (Scenario.empty_world O)
                  (Update.mk (Some Cases.other_post)) Cases.other_post eq_refl)).
Defined.
